(** * CURA360: the clinical-stage evaluator of the wounds module

    A shallow embedding of [evaluateStage], [updateStage], [getById],
    [_showsImprovement] and [_noImprovement] of the wounds module, and of
    [listByWound] of the treatments module, together with the part of the
    JavaScript value semantics these functions rely on (truthiness, strict
    equality, relational comparison with numeric coercion).

    A wound row is the JSON object the backend returns: a finite map from
    column names to JSON scalars.  A missing key reads as [undefined]. *)

From Stdlib Require Import ZArith QArith Qabs Bool.
From stdpp Require Import base option list strings gmap.

Local Open Scope Z_scope.

(** ** JavaScript values *)

Module Js.

(** The values a column of a JSON row can hold, plus [undefined], which is
    what reading an absent property yields.  A number is the rational value
    of the double: every finite double is a rational, and JSON has no
    literal for NaN or the infinities. *)
Inductive JsVal : Type :=
  | JUndefined
  | JNull
  | JBool (b : bool)
  | JNum (q : Q)
  | JStr (s : string).

(** The result of [ToNumber]: computed numbers can be NaN or infinite. *)
Inductive JsNumber : Type :=
  | NaN
  | PosInfinity
  | NegInfinity
  | Finite (q : Q).

Definition Qlt_bool (a b : Q) : bool := negb (Qle_bool b a).

(** [ToBoolean]. *)
Definition truthy (v : JsVal) : bool :=
  match v with
  | JUndefined | JNull => false
  | JBool b => b
  | JNum q => negb (Qeq_bool q 0)
  | JStr s => negb (String.eqb s "")
  end.

(** [a === b]. *)
Definition strict_eq (a b : JsVal) : bool :=
  match a, b with
  | JUndefined, JUndefined => true
  | JNull, JNull => true
  | JBool x, JBool y => Bool.eqb x y
  | JNum x, JNum y => Qeq_bool x y
  | JStr x, JStr y => String.eqb x y
  | _, _ => false
  end.

(** [Number::lessThan]: [None] is the specification's "undefined" answer,
    given when either operand is NaN. *)
Definition number_lt (x y : JsNumber) : option bool :=
  match x, y with
  | NaN, _ | _, NaN => None
  | PosInfinity, _ => Some false
  | _, PosInfinity => Some true
  | _, NegInfinity => Some false
  | NegInfinity, _ => Some true
  | Finite a, Finite b => Some (Qlt_bool a b)
  end.

(** The two string parsers of the language that the evaluator reaches
    through coercions and never implements itself: [StringToNumber], used
    when a string meets a number in a comparison, and [Date.parse], used by
    [new Date(string)] ([None] is an Invalid Date, else the time value in
    milliseconds).  The development is parametric in them. *)
Class Builtins : Type := {
  StringToNumber : string -> JsNumber;
  Date_parse : string -> option Z
}.

Section Coercions.

Context {js : Builtins}.

Definition ToNumber (v : JsVal) : JsNumber :=
  match v with
  | JUndefined => NaN
  | JNull => Finite 0
  | JBool true => Finite 1
  | JBool false => Finite 0
  | JNum q => Finite q
  | JStr s => StringToNumber s
  end.

(** [a < n], [a > n], [a <= n] for a value [a] and a numeric literal [n]:
    neither operand is a pair of strings, so both go through [ToNumber]. *)
Definition js_lt (a : JsVal) (n : Q) : bool :=
  match number_lt (ToNumber a) (Finite n) with
  | Some true => true
  | _ => false
  end.

Definition js_gt (a : JsVal) (n : Q) : bool :=
  match number_lt (Finite n) (ToNumber a) with
  | Some true => true
  | _ => false
  end.

Definition js_le (a : JsVal) (n : Q) : bool :=
  match number_lt (Finite n) (ToNumber a) with
  | Some false => true
  | _ => false
  end.

End Coercions.

(** [x < y] and [x > y] between two computed numbers. *)
Definition num_lt (x y : JsNumber) : bool :=
  match number_lt x y with Some true => true | _ => false end.

Definition num_gt (x y : JsNumber) : bool := num_lt y x.

End Js.

Import Js.

(** ** The hosted backend

    The two tables the evaluator touches, the requests sent to them, and a
    fault oracle that says which requests the backend fails. *)

Module Backend.

(** A JSON row: column name to value.  [get] is property access. *)
Abbreviation Row := (gmap string JsVal).

Definition get (r : Row) (k : string) : JsVal := default JUndefined (r !! k).

(** A row of the [treatments] table (columns of schema.sql); [t_created_at]
    is the instant of the timestamp, in milliseconds. *)
Record Treatment : Type := mkTreatment {
  t_id : string;
  t_wound_id : string;
  t_technique : string;
  t_supplies : option string;
  t_notes : option string;
  t_created_at : Z
}.

Record Database : Type := mkDatabase {
  wounds_table : list Row;
  treatments_table : list Treatment
}.

Inductive Request : Type :=
  | SelectWoundSingle (id : string)
  | SelectTreatments (woundId : string)
  | UpdateWounds (patch : Row) (id : string).

Definition Error := string.

(** The state an asynchronous call runs in.  [clock] is the instant
    [new Date()] reads; [faults] tells which requests fail; [sent] records
    every request issued, oldest first. *)
Record World : Type := mkWorld {
  db : Database;
  clock : Z;
  faults : Request -> bool;
  sent : list Request
}.

(** An [async] function: it returns or throws, and changes the world. *)
Inductive Outcome (A : Type) : Type :=
  | Returned (a : A)
  | Thrown (e : Error).
Arguments Returned {A} a.
Arguments Thrown {A} e.

Definition Async (A : Type) : Type := World -> Outcome A * World.

Definition ret {A} (a : A) : Async A := fun w => (Returned a, w).

Definition throw {A} (e : Error) : Async A := fun w => (Thrown e, w).

Definition bind {A B} (m : Async A) (k : A -> Async B) : Async B :=
  fun w =>
    match m w with
    | (Returned a, w') => k a w'
    | (Thrown e, w') => (Thrown e, w')
    end.

(** [try { body } catch (err) { handler }]. *)
Definition try_catch {A} (body : Async A) (handler : Error -> Async A) : Async A :=
  fun w =>
    match body w with
    | (Returned a, w') => (Returned a, w')
    | (Thrown e, w') => handler e w'
    end.

Definition new_Date_now : Async Z := fun w => (Returned (clock w), w).

#[export] Instance async_ret : MRet Async := @ret.
#[export] Instance async_bind : MBind Async := fun A B k m => bind m k.

(** What a request resolves to: [{ data, error }].  The client reports a
    failure in [error]; it does not throw. *)
Record Response (A : Type) : Type := mkResponse {
  data : option A;
  error : option Error
}.
Arguments mkResponse {A}.
Arguments data {A}.
Arguments error {A}.

Definition has_id (id : string) (r : Row) : bool := strict_eq (get r "id") (JStr id).

Definition send (q : Request) : Async bool :=
  fun w => (Returned (faults w q),
            mkWorld (db w) (clock w) (faults w) (sent w ++ [q])).

(** [from('wounds').select('*').eq('id', id).single()]: an error unless
    exactly one row matches. *)
Definition select_wound_single (id : string) : Async (Response Row) :=
  (failed ← send (SelectWoundSingle id);
   if failed : bool then ret (mkResponse None (Some "request failed"))
   else fun w =>
     match filter (fun r => has_id id r = true) (wounds_table (db w)) with
     | [r] => (Returned (mkResponse (Some r) None), w)
     | _ => (Returned (mkResponse None (Some "PGRST116")), w)
     end).

(** Insertion into a list kept in descending [t_created_at] order. *)
Fixpoint insert_desc (t : Treatment) (l : list Treatment) : list Treatment :=
  match l with
  | [] => [t]
  | u :: l' =>
      if t_created_at u <=? t_created_at t then t :: u :: l'
      else u :: insert_desc t l'
  end.

Definition order_created_at_desc (l : list Treatment) : list Treatment :=
  foldr insert_desc [] l.

(** [from('treatments').select('*').eq('wound_id', id)
      .order('created_at', { ascending: false })]. *)
Definition select_treatments (woundId : string) : Async (Response (list Treatment)) :=
  (failed ← send (SelectTreatments woundId);
   if failed : bool then ret (mkResponse None (Some "request failed"))
   else fun w =>
     let rows := filter (fun t => t_wound_id t = woundId) (treatments_table (db w)) in
     (Returned (mkResponse (Some (order_created_at_desc rows)) None), w)).

(** Merging a patch object into a row: the patch's columns win. *)
Definition apply_patch (patch : Row) (id : string) (r : Row) : Row :=
  if has_id id r then patch ∪ r else r.

(** [from('wounds').update(patch).eq('id', id)]; a failed request leaves
    the table as it was. *)
Definition update_wounds (patch : Row) (id : string) : Async (Response unit) :=
  (failed ← send (UpdateWounds patch id);
   if failed : bool then ret (mkResponse None (Some "request failed"))
   else fun w =>
     let d := mkDatabase (apply_patch patch id <$> wounds_table (db w))
                         (treatments_table (db w)) in
     (Returned (mkResponse None None), mkWorld d (clock w) (faults w) (sent w))).

End Backend.

Import Backend.

(** ** The treatments module *)

Module Treatments.

(** [treatments.listByWound]: the rows of one wound, newest first; any
    error is caught and an empty array is returned in its place. *)
Definition listByWound (woundId : string) : Async (list Treatment) :=
  try_catch
    (res ← select_treatments woundId;
     match error res with
     | Some e => throw e
     | None => ret (default [] (data res))
     end)
    (fun err => ret []).

End Treatments.

(** ** The wounds module *)

Module Wounds.

(** [wounds.getById]: the row, or [null] (here [None]) on any error. *)
Definition getById (woundId : string) : Async (option Row) :=
  try_catch
    (res ← select_wound_single woundId;
     match error res with
     | Some e => throw e
     | None => ret (data res)
     end)
    (fun err => ret None).

(** [wounds.updateStage]: one update of the [clinical_stage] column;
    [true] when the backend accepted it, [false] on any error. *)
Definition updateStage (woundId : string) (newStage : JsVal) : Async bool :=
  try_catch
    (res ← update_wounds {[ "clinical_stage" := newStage ]} woundId;
     match error res with
     | Some e => throw e
     | None => ret true
     end)
    (fun err => ret false).

Section Evaluator.

Context {js : Builtins}.

(** [TimeClip]: NaN beyond 8.64e15 ms, else truncation to an integer. *)
Definition TimeClip (n : JsNumber) : option Z :=
  match n with
  | Finite q =>
      if Qle_bool (Qabs q) (inject_Z 8640000000000000)
      then Some (Z.quot (Qnum q) (Z.pos (Qden q)))
      else None
  | _ => None
  end.

(** [new Date(v)]: a string is parsed, anything else goes through
    [ToNumber]. *)
Definition new_Date (v : JsVal) : option Z :=
  match v with
  | JStr s => Date_parse s
  | _ => TimeClip (ToNumber v)
  end.

(** [Math.floor((today - createdDate) / (1000 * 60 * 60 * 24))].  The
    only uses are [< 1] and [> 14]; on time values the rounded double
    quotient and the exact one agree on both tests, so the quotient is
    taken exactly. *)
Definition daysSince (today : Z) (createdDate : option Z) : JsNumber :=
  match createdDate with
  | Some c => Finite (inject_Z ((today - c) / (1000 * 60 * 60 * 24)))
  | None => NaN
  end.

Definition _showsImprovement (wound : Row) (treatments : list Treatment) : bool :=
  if (length treatments <? 2)%nat then false
  else if strict_eq (get wound "exudate_amount") (JStr "escaso")
          || strict_eq (get wound "exudate_amount") (JStr "moderado") then true
  else if negb (strict_eq (get wound "pain_scale") JNull)
          && js_le (get wound "pain_scale") 4 then true
  else if truthy (get wound "length_cm") && truthy (get wound "width_cm") then
    if js_lt (get wound "length_cm") 5 && js_lt (get wound "width_cm") 5 then true
    else false
  else false.

Definition _noImprovement (wound : Row) (treatments : list Treatment) : bool :=
  if strict_eq (get wound "exudate_amount") (JStr "abundante") then true
  else if truthy (get wound "pain_scale") && js_gt (get wound "pain_scale") 6 then true
  else if truthy (get wound "length_cm") && truthy (get wound "width_cm") then
    if js_gt (get wound "length_cm") 8 || js_gt (get wound "width_cm") 8 then true
    else false
  else false.

(** The conditions of the five rules, in the order of the [else if]
    chain. *)
Definition rule1 (treatmentCount : nat) (daysSinceCreation : JsNumber) : bool :=
  (treatmentCount =? 0)%nat && num_lt daysSinceCreation (Finite 1).

Definition rule2 (wound : Row) (treatmentCount : nat) : bool :=
  (1 <=? treatmentCount)%nat && (treatmentCount <=? 3)%nat
  && negb (truthy (get wound "infection_signs")).

Definition rule3 (wound : Row) (treatments : list Treatment)
    (treatmentCount : nat) (daysSinceCreation : JsNumber) : bool :=
  strict_eq (get wound "infection_signs") (JStr "si")
  || (truthy (get wound "pain_scale") && js_gt (get wound "pain_scale") 7)
  || (num_gt daysSinceCreation (Finite 14) && (5 <? treatmentCount)%nat
      && _noImprovement wound treatments).

Definition rule4 (wound : Row) (treatments : list Treatment)
    (treatmentCount : nat) : bool :=
  (3 <? treatmentCount)%nat
  && negb (truthy (get wound "infection_signs"))
  && (strict_eq (get wound "pain_scale") JNull || js_le (get wound "pain_scale") 5)
  && _showsImprovement wound treatments.

Definition rule5 (wound : Row) : bool :=
  truthy (get wound "length_cm") && truthy (get wound "width_cm")
  && js_lt (get wound "length_cm") 1 && js_lt (get wound "width_cm") 1
  && strict_eq (get wound "exudate_amount") (JStr "escaso")
  && (negb (truthy (get wound "pain_scale")) || js_le (get wound "pain_scale") 2)
  && negb (strict_eq (get wound "infection_signs") (JStr "si")).

(** The value of [newStage] after the rule chain: it starts as the
    stored stage and the first rule whose condition holds overwrites it. *)
Definition ruleCascade (wound : Row) (treatments : list Treatment)
    (daysSinceCreation : JsNumber) : JsVal :=
  let treatmentCount := length treatments in
  if rule1 treatmentCount daysSinceCreation then JStr "valoracion_inicial"
  else if rule2 wound treatmentCount then JStr "tratamiento_en_curso"
  else if rule3 wound treatments treatmentCount daysSinceCreation then JStr "bajo_observacion"
  else if rule4 wound treatments treatmentCount then JStr "evolucion_favorable"
  else if rule5 wound then JStr "alta_clinica"
  else get wound "clinical_stage".

(** [wounds.evaluateStage].  Console output is not modelled. *)
Definition evaluateStage (woundId : string) : Async JsVal :=
  try_catch
    (wound ← getById woundId;
     match wound with
     | None => ret JNull
     | Some wound =>
         treatments ← Treatments.listByWound woundId;
         let lastTreatment := head treatments in
         let createdDate := new_Date (get wound "created_at") in
         today ← new_Date_now;
         let daysSinceCreation := daysSince today createdDate in
         let newStage := ruleCascade wound treatments daysSinceCreation in
         (if negb (strict_eq newStage (get wound "clinical_stage"))
          then updateStage woundId newStage ;; ret tt
          else ret tt) ;;
         ret newStage
     end)
    (fun err => ret JNull).

End Evaluator.

End Wounds.

Import Wounds.

(** ** Observations on a world *)

(** What [getById] finds: the single row with this id, when the read is
    not failed by the backend. *)
Definition wound_read (id : string) (w : World) : option Row :=
  if faults w (SelectWoundSingle id) then None
  else match filter (fun r => has_id id r = true) (wounds_table (db w)) with
       | [r] => Some r
       | _ => None
       end.

(** The treatments stored for a wound, and what [listByWound] hands to
    its caller. *)
Definition stored_treatments (id : string) (w : World) : list Treatment :=
  filter (fun t => t_wound_id t = id) (treatments_table (db w)).

Definition treatments_read (id : string) (w : World) : list Treatment :=
  if faults w (SelectTreatments id) then []
  else order_created_at_desc (stored_treatments id w).

Definition log (qs : list Request) (w : World) : World :=
  mkWorld (db w) (clock w) (faults w) (sent w ++ qs).

Definition result {A} (r : Outcome A * World) : Outcome A := fst r.
Definition world_after {A} (r : Outcome A * World) : World := snd r.

(** The requests a run added to the log. *)
Definition issued {A} (w : World) (r : Outcome A * World) : list Request :=
  drop (length (sent w)) (sent (world_after r)).

Definition is_stage_write (q : Request) : bool :=
  match q with
  | UpdateWounds _ _ => true
  | _ => false
  end.

(** The five clinical stages. *)
Definition stage_names : list string :=
  [ "valoracion_inicial"; "tratamiento_en_curso"; "bajo_observacion";
    "evolucion_favorable"; "alta_clinica" ].

Definition is_stage (v : JsVal) : Prop :=
  exists n, n ∈ stage_names /\ v = JStr n.

(** The patch object [{ clinical_stage: s }]. *)
Definition stage_patch (s : JsVal) : Row := {[ "clinical_stage" := s ]}.

(** The world after [updateStage id s]: the request is logged, and the
    table changes unless the backend fails the request. *)
Definition write_applied (id : string) (s : JsVal) (w : World) : World :=
  if faults w (UpdateWounds (stage_patch s) id)
  then log [UpdateWounds (stage_patch s) id] w
  else mkWorld
         (mkDatabase (apply_patch (stage_patch s) id <$> wounds_table (db w))
                     (treatments_table (db w)))
         (clock w) (faults w) (sent w ++ [UpdateWounds (stage_patch s) id]).

(** A numeric column as the backend serialises it: absent, null or a
    number. *)
Definition numeric_or_absent (v : JsVal) : Prop :=
  v = JUndefined \/ v = JNull \/ exists q, v = JNum q.


(** [v] is a number below [n]. *)
Definition number_below (v : JsVal) (n : Q) : Prop :=
  exists q, v = JNum q /\ (q < n)%Q.


(** [v] is a number other than zero. *)
Definition nonzero_number (v : JsVal) : Prop :=
  exists q, v = JNum q /\ ~ (q == 0)%Q.


(** A measurement that is absent, null, or recorded with a value other
    than zero. *)
Definition absent_or_nonzero (v : JsVal) : Prop :=
  v = JUndefined \/ v = JNull \/ nonzero_number v.

Section Observed.

Context {js : Builtins}.

(** Whole days between the wound's creation and the world's clock. *)
Definition age_in_days (wound : Row) (w : World) : JsNumber :=
  daysSince (clock w) (new_Date (get wound "created_at")).

(** The stage the rule chain computes for a wound in a world. *)
Definition computed_stage (id : string) (wound : Row) (w : World) : JsVal :=
  ruleCascade wound (treatments_read id w) (age_in_days wound w).

(** The conditions of rules 1 to 4 on what the evaluator has read. *)
Definition rule1_applies (id : string) (wound : Row) (w : World) : bool :=
  rule1 (length (treatments_read id w)) (age_in_days wound w).

Definition rule2_applies (id : string) (wound : Row) (w : World) : bool :=
  rule2 wound (length (treatments_read id w)).

Definition rule3_applies (id : string) (wound : Row) (w : World) : bool :=
  rule3 wound (treatments_read id w)
    (length (treatments_read id w)) (age_in_days wound w).

Definition rule4_applies (id : string) (wound : Row) (w : World) : bool :=
  rule4 wound (treatments_read id w) (length (treatments_read id w)).

End Observed.

(** ** Fixtures

    Concrete parsers, rows and worlds on which the evaluator is run. *)

Module Fixture.

(** The numeric columns of the fixture rows hold numbers or nothing, so no
    comparison ever reaches a string: the runs below use a parser that
    accepts none. *)
Definition no_numeric_strings (s : string) : JsNumber := NaN.

Definition digit (c : Ascii.ascii) : option Z :=
  let n := Z.of_N (Ascii.N_of_ascii c) in
  if (48 <=? n) && (n <=? 57) then Some (n - 48) else None.

Fixpoint digits (acc : Z) (s : string) : option Z :=
  match s with
  | EmptyString => Some acc
  | String c s' => d ← digit c; digits (acc * 10 + d) s'
  end.

(** Days from 1970-01-01 to a date of the proleptic Gregorian calendar. *)
Definition days_from_civil (y m d : Z) : Z :=
  let y' := if m <=? 2 then y - 1 else y in
  let era := y' / 400 in
  let yoe := y' - era * 400 in
  let doy := (153 * (if 2 <? m then m - 3 else m + 9) + 2) / 5 + d - 1 in
  let doe := yoe * 365 + yoe / 4 - yoe / 100 + doy in
  era * 146097 + doe - 719468.

Definition days_in_month (y m : Z) : Z :=
  if m =? 2 then
    if ((y mod 4 =? 0) && negb (y mod 100 =? 0)) || (y mod 400 =? 0) then 29 else 28
  else if (m =? 4) || (m =? 6) || (m =? 9) || (m =? 11) then 30
  else 31.

(** [Date.parse] on the UTC date-time form [YYYY-MM-DDTHH:mm:ssZ]; every
    other string is an Invalid Date here. *)
Definition Date_parse_utc (s : string) : option Z :=
  if negb (String.eqb (String.substring 4 1 s) "-"
           && String.eqb (String.substring 7 1 s) "-"
           && String.eqb (String.substring 10 1 s) "T"
           && String.eqb (String.substring 13 1 s) ":"
           && String.eqb (String.substring 16 1 s) ":"
           && String.eqb (String.substring 19 2 s) "Z")
  then None
  else
    y ← digits 0 (String.substring 0 4 s);
    m ← digits 0 (String.substring 5 2 s);
    d ← digits 0 (String.substring 8 2 s);
    h ← digits 0 (String.substring 11 2 s);
    mi ← digits 0 (String.substring 14 2 s);
    sec ← digits 0 (String.substring 17 2 s);
    if (1 <=? m) && (m <=? 12) && (1 <=? d) && (d <=? days_in_month y m)
       && (h <=? 23) && (mi <=? 59) && (sec <=? 59)
    then Some ((((days_from_civil y m d * 24 + h) * 60 + mi) * 60 + sec) * 1000)
    else None.

Definition no_faults (q : Request) : bool := false.

Definition instant (s : string) : Z := default 0 (Date_parse_utc s).

Definition treatment (id woundId created : string) : Treatment :=
  mkTreatment id woundId "limpieza" None None (instant created).

Definition builtins : Builtins :=
  {| StringToNumber := no_numeric_strings; Date_parse := Date_parse_utc |}.

Definition run (id : string) (w : World) : Outcome JsVal * World :=
  @evaluateStage builtins id w.

(** Wound "w1", registered on 2026-03-01 at 10:00 UTC. *)
Definition wound_w1 (stage : string) : Row :=
  {[ "id" := JStr "w1"; "patient_id" := JStr "p1";
     "created_at" := JStr "2026-03-01T10:00:00Z";
     "clinical_stage" := JStr stage ]}.

Definition two_treatments : list Treatment :=
  [ treatment "t1" "w1" "2026-03-01T10:30:00Z";
    treatment "t2" "w1" "2026-03-01T11:30:00Z" ].

(** Infection signs, no treatment yet, evaluated two hours after
    registration. *)
Definition infected_wound : Row :=
  <[ "infection_signs" := JStr "si" ]> (wound_w1 "valoracion_inicial").

Definition infected_world : World :=
  mkWorld (mkDatabase [infected_wound] []) (instant "2026-03-01T12:00:00Z")
          no_faults [].

(** The same wound evaluated two days after registration. *)
Definition infected_later_world : World :=
  mkWorld (mkDatabase [infected_wound] []) (instant "2026-03-03T10:00:00Z")
          no_faults [].

(** Pain 9, no infection signs recorded, two treatments, evaluated two
    days after registration. *)
Definition painful_wound : Row :=
  <[ "pain_scale" := JNum 9 ]> (wound_w1 "valoracion_inicial").

Definition painful_world : World :=
  mkWorld (mkDatabase [painful_wound] two_treatments)
          (instant "2026-03-03T10:00:00Z") no_faults [].

(** The same wound without any treatment. *)
Definition painful_untreated_world : World :=
  mkWorld (mkDatabase [painful_wound] []) (instant "2026-03-03T10:00:00Z")
          no_faults [].

(** [infection_signs] is the string "no", two treatments, evaluated two
    days after registration. *)
Definition clean_wound : Row :=
  <[ "infection_signs" := JStr "no" ]> (wound_w1 "valoracion_inicial").

Definition clean_world : World :=
  mkWorld (mkDatabase [clean_wound] two_treatments)
          (instant "2026-03-03T10:00:00Z") no_faults [].

(** [infection_signs] absent, two treatments, stage still the initial
    one. *)
Definition treated_world : World :=
  mkWorld (mkDatabase [wound_w1 "valoracion_inicial"] two_treatments)
          (instant "2026-03-03T10:00:00Z") no_faults [].

(** Two treatments stored, stage already [tratamiento_en_curso], evaluated
    two hours after registration while the backend fails the treatment
    list. *)
Definition fails_treatment_list (q : Request) : bool :=
  match q with
  | SelectTreatments _ => true
  | _ => false
  end.

Definition outage_world : World :=
  mkWorld (mkDatabase [wound_w1 "tratamiento_en_curso"] two_treatments)
          (instant "2026-03-01T12:00:00Z") fails_treatment_list [].

(** The backend fails the stage update. *)
Definition fails_update (q : Request) : bool :=
  match q with
  | UpdateWounds _ _ => true
  | _ => false
  end.

Definition readonly_world : World :=
  mkWorld (mkDatabase [wound_w1 "valoracion_inicial"] two_treatments)
          (instant "2026-03-03T10:00:00Z") fails_update [].

(** No wound has the id asked for. *)
Definition empty_world : World :=
  mkWorld (mkDatabase [] []) (instant "2026-03-03T10:00:00Z") no_faults [].







End Fixture.


(** ** The page helpers (router.js) *)

Module Router.

Record Toast : Type := mkToast {
  toast_message : string;
  toast_type : string;
  toast_duration : Z
}.

(** The part of the document the helpers touch.  [loader] is [None] when
    the page has no [#loader] element, else whether that element carries
    the class [hidden]; [toasts] lists the toasts appended to the
    container, oldest first (their later removal by timer is not
    modelled). *)
Record Document : Type := mkDocument {
  loader : option bool;
  toasts : list Toast
}.

(** [showToast(message, type = 'error', duration = 3500)]; an argument
    left out is [None]. *)
Definition showToast (message : string) (type : option string)
    (duration : option Z) (d : Document) : Document :=
  mkDocument (loader d)
    (toasts d ++ [mkToast message (default "error" type) (default 3500 duration)]).

(** [setLoader(show)]. *)
Definition setLoader (show : bool) (d : Document) : Document :=
  match loader d with
  | None => d
  | Some _ => mkDocument (Some (negb show)) (toasts d)
  end.

Section Initials.

(** A string is a sequence of code units; [toUpperCase] is the language's
    own and stays a parameter. *)
Context {Char : Type} `{EqDecision Char}.
Variable space : Char.
Variable question_mark : Char.
Variable toUpperCase : list Char -> list Char.

(** [s.split(' ')]. *)
Fixpoint split (s : list Char) : list (list Char) :=
  match s with
  | [] => [[]]
  | c :: s' =>
      if decide (c = space) then [] :: split s'
      else match split s' with
           | w :: ws => (c :: w) :: ws
           | [] => [[c]]
           end
  end.

(** [a.join('')] on an array of code units and [undefined]s. *)
Definition join (a : list (option Char)) : list Char :=
  mjoin (option_list <$> a).

(** [getInitials(name)]; [None] is a name that is [null] or [undefined]. *)
Definition getInitials (name : option (list Char)) : list Char :=
  match name with
  | None | Some [] => [question_mark]
  | Some s => toUpperCase (join (take 2 (head <$> split s)))
  end.

End Initials.

End Router.

(** ** Creating and updating records *)

Module App.

Import Router.

(** The test of the cleaning loop:
    [v !== null && v !== '' && v !== undefined]. *)
Definition kept (v : JsVal) : bool :=
  negb (strict_eq v JNull) && negb (strict_eq v (JStr ""))
  && negb (strict_eq v JUndefined).

(** The [for ... in] loop that copies the kept properties of [data] into
    a new object. *)
Definition cleanData (data : Row) : Row :=
  filter (fun kv => kept kv.2 = true) data.

(** A request body is JSON: properties holding [undefined] are left out. *)
Definition json_body (o : Row) : Row :=
  filter (fun kv => strict_eq kv.2 JUndefined = false) o.

(** [Date.prototype.toISOString], the language's own formatter. *)
Class DateFormat : Type := {
  toISOString : Z -> string
}.

(** The world of the form handlers: the evaluator's world, the document,
    what the backend answers to an insert (an error message, or the row it
    stored), the insert requests sent so far, and whether the wounds module
    with [evaluateStage] is loaded on the page. *)
Record AppWorld : Type := mkApp {
  backend : World;
  document : Document;
  wound_insert : Row -> Error + Row;
  treatment_insert : Row -> Error + Treatment;
  inserted : list (string * Row);
  evaluator_loaded : bool
}.

Definition App (A : Type) : Type := AppWorld -> Outcome A * AppWorld.

Definition app_ret {A} (a : A) : App A := fun a0 => (Returned a, a0).

Definition app_throw {A} (e : Error) : App A := fun a0 => (Thrown e, a0).

Definition app_bind {A B} (m : App A) (k : A -> App B) : App B :=
  fun a0 =>
    match m a0 with
    | (Returned a, a1) => k a a1
    | (Thrown e, a1) => (Thrown e, a1)
    end.

#[export] Instance app_mret : MRet App := @app_ret.
#[export] Instance app_mbind : MBind App := fun A B k m => app_bind m k.

(** [try { body } catch (err) { handler } finally { cleanup }]: the
    cleanup runs last on every path and the outcome of body or handler
    stands unless the cleanup itself throws. *)
Definition try_catch_finally {A} (body : App A) (handler : Error -> App A)
    (cleanup : App unit) : App A :=
  fun a0 =>
    let '(o, a1) :=
      match body a0 with
      | (Returned a, a1) => (Returned a, a1)
      | (Thrown e, a1) => handler e a1
      end in
    match cleanup a1 with
    | (Returned _, a2) => (o, a2)
    | (Thrown e, a2) => (Thrown e, a2)
    end.

(** A call of the evaluator's layer, run on the backend part. *)
Definition lift {A} (m : Async A) : App A :=
  fun a0 =>
    let '(o, w) := m (backend a0) in
    (o, mkApp w (document a0) (wound_insert a0) (treatment_insert a0)
              (inserted a0) (evaluator_loaded a0)).

(** A page helper, run on the document. *)
Definition ui (f : Document -> Document) : App unit :=
  fun a0 =>
    (Returned tt,
     mkApp (backend a0) (f (document a0)) (wound_insert a0) (treatment_insert a0)
           (inserted a0) (evaluator_loaded a0)).

Definition with_tables (d : Database) (w : World) : World :=
  mkWorld d (clock w) (faults w) (sent w).

(** [from('wounds').insert([payload]).select().single()]. *)
Definition insert_wound (payload : Row) : App (Response Row) :=
  fun a0 =>
    let log := inserted a0 ++ [("wounds", payload)] in
    match wound_insert a0 payload with
    | inl e =>
        (Returned (mkResponse None (Some e)),
         mkApp (backend a0) (document a0) (wound_insert a0) (treatment_insert a0)
               log (evaluator_loaded a0))
    | inr row =>
        let d := mkDatabase (wounds_table (db (backend a0)) ++ [row])
                            (treatments_table (db (backend a0))) in
        (Returned (mkResponse (Some row) None),
         mkApp (with_tables d (backend a0)) (document a0) (wound_insert a0)
               (treatment_insert a0) log (evaluator_loaded a0))
    end.

(** [from('treatments').insert([payload]).select().single()]. *)
Definition insert_treatment (payload : Row) : App (Response Treatment) :=
  fun a0 =>
    let log := inserted a0 ++ [("treatments", payload)] in
    match treatment_insert a0 payload with
    | inl e =>
        (Returned (mkResponse None (Some e)),
         mkApp (backend a0) (document a0) (wound_insert a0) (treatment_insert a0)
               log (evaluator_loaded a0))
    | inr t =>
        let d := mkDatabase (wounds_table (db (backend a0)))
                            (treatments_table (db (backend a0)) ++ [t]) in
        (Returned (mkResponse (Some t) None),
         mkApp (with_tables d (backend a0)) (document a0) (wound_insert a0)
               (treatment_insert a0) log (evaluator_loaded a0))
    end.

End App.

Import Router App.

(** ** The form handlers of the wounds module *)

Module WoundsCrud.

(** [wounds.create(patientId, data)]. *)
Definition create (patientId : JsVal) (data : Row) : App (option Row) :=
  try_catch_finally
    (ui (setLoader true) ;;
     let data := <[ "clinical_stage" := JStr "valoracion_inicial" ]> data in
     let data := <[ "patient_id" := patientId ]> data in
     let cleanData := cleanData data in
     if negb (truthy (get cleanData "patient_id"))
     then app_throw "patient_id es requerido"
     else
       res ← insert_wound (json_body cleanData);
       match error res with
       | Some e => app_throw e
       | None =>
           ui (showToast "Herida registrada correctamente" None None) ;;
           mret (Backend.data res)
       end)
    (fun err =>
       ui (showToast ("Error al crear herida: " +:+ err) None None) ;;
       mret None)
    (ui (setLoader false)).

(** [wounds.update(woundId, updates)]. *)
Definition update (woundId : string) (updates : Row) : App bool :=
  try_catch_finally
    (ui (setLoader true) ;;
     res ← lift (update_wounds (json_body updates) woundId);
     match error res with
     | Some e => app_throw e
     | None =>
         ui (showToast "Herida actualizada" None None) ;;
         mret true
     end)
    (fun err =>
       ui (showToast "Error al actualizar herida" None None) ;;
       mret false)
    (ui (setLoader false)).

End WoundsCrud.

(** ** The form handler of the treatments module *)

Module TreatmentsCrud.

Section WithEvaluator.

Context {js : Builtins} {fmt : DateFormat}.

(** [treatments.create(woundId, data)].  The test that the wounds module
    and its [evaluateStage] are there is the flag [evaluator_loaded]. *)
Definition create (woundId : string) (data : Row) : App (option Treatment) :=
  try_catch_finally
    (ui (setLoader true) ;;
     let data := <[ "wound_id" := JStr woundId ]> data in
     today ← lift new_Date_now;
     let data := <[ "created_at" := JStr (toISOString today) ]> data in
     let cleanData := cleanData data in
     if negb (truthy (get cleanData "wound_id"))
        || negb (truthy (get cleanData "technique"))
     then app_throw "wound_id y technique son requeridos"
     else
       res ← insert_treatment (json_body cleanData);
       match error res with
       | Some e => app_throw e
       | None =>
           ui (showToast "Curación registrada correctamente" None None) ;;
           loaded ← (fun a0 => (Returned (evaluator_loaded a0), a0));
           (if loaded : bool
            then lift (evaluateStage woundId) ;; mret tt
            else mret tt) ;;
           mret (Backend.data res)
       end)
    (fun err =>
       ui (showToast ("Error al registrar curación: " +:+ err) None None) ;;
       mret None)
    (ui (setLoader false)).

End WithEvaluator.

End TreatmentsCrud.

(** ** Further observations *)

(** No request of the list is a stage write. *)
Definition no_stage_write (qs : list Request) : Prop :=
  forall q, q ∈ qs -> is_stage_write q = false.

(** Every stored wound carries one of the five stage names. *)
Definition stages_valid (d : Database) : Prop :=
  Forall (fun r => is_stage (get r "clinical_stage")) (wounds_table d).

(** The milliseconds of one day, as the evaluator writes them. *)
Definition one_day : Z := 1000 * 60 * 60 * 24.

(** [v] is a number that is at most [n]. *)
Definition number_at_most (v : JsVal) (n : Q) : Prop :=
  exists q, v = JNum q /\ (q <= n)%Q.

Section MoreObserved.

Context {js : Builtins}.

(** Some rule of the chain fires on what the evaluator has read. *)
Definition some_rule_applies (id : string) (wound : Row) (w : World) : bool :=
  rule1_applies id wound w || rule2_applies id wound w
  || rule3_applies id wound w || rule4_applies id wound w || rule5 wound.

End MoreObserved.

(** ** What the form handlers send and leave behind *)

(** The object [wounds.create] hands to the insert. *)
Definition wound_payload (patientId : JsVal) (data : Row) : Row :=
  json_body (cleanData (<[ "patient_id" := patientId ]>
                        (<[ "clinical_stage" := JStr "valoracion_inicial" ]> data))).

Section Payloads.

Context {fmt : DateFormat}.

(** The object [treatments.create] hands to the insert at instant [today]. *)
Definition treatment_payload (woundId : string) (data : Row) (today : Z) : Row :=
  json_body (cleanData (<[ "created_at" := JStr (toISOString today) ]>
                        (<[ "wound_id" := JStr woundId ]> data))).

End Payloads.

(** How a handler leaves the page: the loader, if the page has one, is
    hidden, and one more toast is shown, with the default type and
    duration. *)
Definition page_after (message : string) (d d' : Document) : Prop :=
  loader d' = (fun _ => true) <$> loader d
  /\ toasts d' = toasts d ++ [mkToast message "error" 3500].

(** ** Fixtures for the form handlers *)

Module Scenario.

Import Fixture.

(** Decimal digits of [n], [width] of them, zero-padded. *)
Fixpoint pad (width : nat) (n : Z) : string :=
  match width with
  | O => ""
  | S k => pad k (n / 10) +:+ String (Ascii.ascii_of_N (Z.to_N (48 + n mod 10))) ""
  end.

(** The date of the proleptic Gregorian calendar [days] after 1970-01-01. *)
Definition civil_from_days (days : Z) : Z * Z * Z :=
  let z := days + 719468 in
  let era := z / 146097 in
  let doe := z - era * 146097 in
  let yoe := (doe - doe / 1460 + doe / 36524 - doe / 146096) / 365 in
  let doy := doe - (365 * yoe + yoe / 4 - yoe / 100) in
  let mp := (5 * doy + 2) / 153 in
  let d := doy - (153 * mp + 2) / 5 + 1 in
  let m := if mp <? 10 then mp + 3 else mp - 9 in
  let y := yoe + era * 400 + (if m <=? 2 then 1 else 0) in
  (y, m, d).

(** [toISOString] for the years 0000 to 9999:
    [YYYY-MM-DDTHH:mm:ss.sssZ]. *)
Definition toISOString_utc (t : Z) : string :=
  let '(y, m, d) := civil_from_days (t / one_day) in
  let ms := t mod one_day in
  pad 4 y +:+ "-" +:+ pad 2 m +:+ "-" +:+ pad 2 d +:+ "T"
  +:+ pad 2 (ms / 3600000) +:+ ":" +:+ pad 2 (ms / 60000 mod 60) +:+ ":"
  +:+ pad 2 (ms / 1000 mod 60) +:+ "." +:+ pad 3 (ms mod 1000) +:+ "Z".

Definition date_format : DateFormat := {| toISOString := toISOString_utc |}.

(** A page with its loader hidden and no toast yet. *)
Definition page : Document := mkDocument (Some true) [].

(** A backend that stores what it is sent: a wound under the id "w2", a
    treatment under the id "t3" when the payload names its wound and
    technique. *)
Definition stores_wound (payload : Row) : Error + Row :=
  inr (<[ "id" := JStr "w2" ]>
       (<[ "created_at" := JStr "2026-03-03T10:00:00Z" ]> payload)).

Definition stores_treatment (payload : Row) : Error + Treatment :=
  match get payload "wound_id", get payload "technique" with
  | JStr woundId, JStr technique =>
      inr (mkTreatment "t3" woundId technique None None
             (instant "2026-03-03T10:00:00Z"))
  | _, _ => inl "null value in a required column"
  end.

(** A backend that refuses every insert. *)
Definition refuses {A} (payload : Row) : Error + A :=
  inl "new row violates row-level security policy".

Definition clinic (w : World) : AppWorld :=
  mkApp w page stores_wound stores_treatment [] true.

Definition closed_clinic (w : World) : AppWorld :=
  mkApp w page refuses refuses [] true.

(** What a form hands over: a wound with an empty location and a pain of
    zero, and a stage and patient of the caller's own choosing. *)
Definition wound_form : Row :=
  {[ "location" := JStr ""; "pain_scale" := JNum 0; "type" := JStr "quemadura";
     "clinical_stage" := JStr "alta_clinica"; "patient_id" := JStr "p9";
     "notes" := JNull ]}.

Definition treatment_form : Row :=
  {[ "technique" := JStr "limpieza"; "supplies" := JStr ""; "notes" := JNull ]}.

Definition empty_form : Row := {[ "technique" := JStr "" ]}.

(** A fresh wound without treatments, two days after its registration. *)
Definition untreated_world : World :=
  mkWorld (mkDatabase [wound_w1 "valoracion_inicial"] [])
          (instant "2026-03-03T10:00:00Z") no_faults [].

(** The same backend while every evaluator request fails. *)
Definition all_faults (q : Request) : bool := true.

Definition unreachable_world : World :=
  mkWorld (mkDatabase [wound_w1 "valoracion_inicial"] [])
          (instant "2026-03-03T10:00:00Z") all_faults [].

(** Six treatments, abundant exudate, twenty days after registration. *)
Definition six_treatments : list Treatment :=
  [ treatment "t1" "w1" "2026-03-02T10:00:00Z";
    treatment "t2" "w1" "2026-03-05T10:00:00Z";
    treatment "t3" "w1" "2026-03-08T10:00:00Z";
    treatment "t4" "w1" "2026-03-11T10:00:00Z";
    treatment "t5" "w1" "2026-03-14T10:00:00Z";
    treatment "t6" "w1" "2026-03-17T10:00:00Z" ].

Definition stalled_wound : Row :=
  <[ "exudate_amount" := JStr "abundante" ]> (wound_w1 "tratamiento_en_curso").

Definition stalled_world : World :=
  mkWorld (mkDatabase [stalled_wound] six_treatments)
          (instant "2026-03-21T10:00:00Z") no_faults [].

(** Four treatments, moderate exudate, pain recorded as null, nine days
    after registration. *)
Definition improving_wound : Row :=
  <[ "exudate_amount" := JStr "moderado" ]>
    (<[ "pain_scale" := JNull ]> (wound_w1 "tratamiento_en_curso")).

Definition improving_world : World :=
  mkWorld (mkDatabase [improving_wound] (take 4 six_treatments))
          (instant "2026-03-10T10:00:00Z") no_faults [].

(** A wound whose [created_at] does not parse. *)
Definition undated_wound : Row :=
  <[ "created_at" := JStr "ayer" ]> (wound_w1 "valoracion_inicial").

Definition undated_world : World :=
  mkWorld (mkDatabase [undated_wound] []) (instant "2026-03-01T12:00:00Z")
          no_faults [].

(** The world of [treated_world] with two other treatments. *)
Definition other_treatments : list Treatment :=
  [ mkTreatment "t7" "w1" "desbridamiento" (Some "gasas") None
      (instant "2026-03-02T08:00:00Z");
    mkTreatment "t8" "w1" "vendaje" None (Some "sin novedad")
      (instant "2026-03-02T20:00:00Z") ].

Definition retreated_world : World :=
  mkWorld (mkDatabase [wound_w1 "valoracion_inicial"] other_treatments)
          (instant "2026-03-03T10:00:00Z") no_faults [].

(** An update of two clinical columns. *)
Definition pain_update : Row :=
  {[ "pain_scale" := JNum 3; "exudate_amount" := JStr "escaso";
     "notes" := JUndefined ]}.

(** The treatment the storing backend makes of [treatment_form]. *)
Definition stored_treatment : Treatment :=
  mkTreatment "t3" "w1" "limpieza" None None (instant "2026-03-03T10:00:00Z").

(** Names as sequences of bytes, upper-cased letter by letter. *)
Definition upper (c : Ascii.ascii) : Ascii.ascii :=
  let n := Ascii.N_of_ascii c in
  if (97 <=? n)%N && (n <=? 122)%N then Ascii.ascii_of_N (n - 32) else c.

Definition initials (name : string) : string :=
  String.string_of_list_ascii
    (getInitials (Ascii.ascii_of_N 32) (Ascii.ascii_of_N 63) (map upper) (Some (String.list_ascii_of_string name))).

End Scenario.

(** Membership in a list written out. *)
Ltac in_list :=
  cbn; repeat first [apply list_elem_of_here | apply list_elem_of_further].

(** * Properties *)

(** ** JavaScript comparisons *)

Lemma Qlt_bool_iff (a b : Q) : Qlt_bool a b = true <-> (a < b)%Q.
Proof.
  unfold Qlt_bool. rewrite negb_true_iff.
  destruct (Qle_bool b a) eqn:E.
  - apply Qle_bool_iff in E. split; [discriminate|].
    intros H. exfalso. exact (Qlt_not_le _ _ H E).
  - split; [|reflexivity]. intros _.
    apply Qnot_le_lt. intros H. apply Qle_bool_iff in H. congruence.
Qed.

Lemma strict_eq_refl (v : JsVal) : strict_eq v v = true.
Proof.
  destruct v as [| |b|q|s]; cbn; try reflexivity.
  - by destruct b.
  - apply Qeq_bool_iff. reflexivity.
  - apply String.eqb_refl.
Qed.

Lemma strict_eq_str (v : JsVal) (s : string) : strict_eq v (JStr s) = true <-> v = JStr s.
Proof.
  destruct v as [| |b|q|s']; cbn; try (split; [discriminate|congruence]).
  rewrite String.eqb_eq. split; congruence.
Qed.

Lemma truthy_number (q : Q) : truthy (JNum q) = true <-> ~ (q == 0)%Q.
Proof.
  cbn. rewrite negb_true_iff. split.
  - intros E H. apply Qeq_bool_iff in H. congruence.
  - intros H. destruct (Qeq_bool q 0) eqn:E; [|reflexivity].
    apply Qeq_bool_iff in E. contradiction.
Qed.

Section Comparisons.

Context {js : Builtins}.

Lemma js_gt_number (q n : Q) : js_gt (JNum q) n = true <-> (n < q)%Q.
Proof.
  unfold js_gt. cbn. rewrite <- Qlt_bool_iff.
  destruct (Qlt_bool n q); split; congruence.
Qed.

Lemma js_lt_number (q n : Q) : js_lt (JNum q) n = true <-> (q < n)%Q.
Proof.
  unfold js_lt. cbn. rewrite <- Qlt_bool_iff.
  destruct (Qlt_bool q n); split; congruence.
Qed.

Lemma js_le_number (q n : Q) : js_le (JNum q) n = true <-> (q <= n)%Q.
Proof.
  unfold js_le. cbn. unfold Qlt_bool. rewrite <- Qle_bool_iff.
  destruct (Qle_bool q n); cbn; split; congruence.
Qed.





End Comparisons.

(** ** The backend calls, one equation each *)

Lemma length_insert_desc t l : length (insert_desc t l) = S (length l).
Proof.
  induction l as [|u l IH]; cbn; [reflexivity|].
  destruct (t_created_at u <=? t_created_at t); cbn; [reflexivity|].
  by rewrite IH.
Qed.

Lemma length_order_created_at_desc l : length (order_created_at_desc l) = length l.
Proof.
  unfold order_created_at_desc.
  induction l as [|t l IH]; cbn; [reflexivity|].
  by rewrite length_insert_desc, IH.
Qed.

Lemma getById_run id w :
  getById id w = (Returned (wound_read id w), log [SelectWoundSingle id] w).
Proof.
  unfold getById, try_catch, select_wound_single, wound_read, log, send.
  unfold mbind, async_bind, bind. cbn.
  destruct (faults w (SelectWoundSingle id)); cbn; [done|].
  destruct (filter _ _) as [|r [|r' l]]; done.
Qed.

Lemma listByWound_run id w :
  Treatments.listByWound id w
  = (Returned (treatments_read id w), log [SelectTreatments id] w).
Proof.
  unfold Treatments.listByWound, try_catch, select_treatments, treatments_read,
    stored_treatments, log, send.
  unfold mbind, async_bind, bind. cbn.
  destruct (faults w (SelectTreatments id)); done.
Qed.

Lemma updateStage_run id s w :
  updateStage id s w
  = (Returned (negb (faults w (UpdateWounds (stage_patch s) id))), write_applied id s w).
Proof.
  unfold updateStage, try_catch, update_wounds, write_applied, stage_patch, log, send.
  unfold mbind, async_bind, bind. cbn.
  destruct (faults w _); done.
Qed.

Lemma treatments_read_ok id w :
  faults w (SelectTreatments id) = false ->
  length (treatments_read id w) = length (stored_treatments id w).
Proof.
  intros H. unfold treatments_read. rewrite H. apply length_order_created_at_desc.
Qed.

Section Runs.

Context {js : Builtins}.


(** One equation for every run of [evaluateStage]. *)
Lemma evaluateStage_run id w :
  evaluateStage id w =
    match wound_read id w with
    | None => (Returned JNull, log [SelectWoundSingle id] w)
    | Some wound =>
        let w2 := log [SelectTreatments id] (log [SelectWoundSingle id] w) in
        let newStage := computed_stage id wound w in
        if strict_eq newStage (get wound "clinical_stage")
        then (Returned newStage, w2)
        else (Returned newStage, write_applied id newStage w2)
    end.
Proof.
  unfold Wounds.evaluateStage, try_catch.
  unfold mbind, async_bind, bind at 1.
  rewrite getById_run.
  destruct (wound_read id w) as [wound|]; [|done].
  unfold bind at 1. rewrite listByWound_run.
  unfold new_Date_now, bind at 1. cbn [clock log].
  unfold computed_stage, age_in_days.
  change (treatments_read id (log [SelectWoundSingle id] w)) with (treatments_read id w).
  cbv zeta.
  destruct (strict_eq _ _); cbn [negb].
  - reflexivity.
  - unfold bind. rewrite updateStage_run. reflexivity.
Qed.

Lemma evaluateStage_result id w wound :
  wound_read id w = Some wound ->
  result (evaluateStage id w) = Returned (computed_stage id wound w).
Proof.
  intros H. rewrite evaluateStage_run, H. cbv zeta.
  by destruct (strict_eq _ _).
Qed.

End Runs.

(** ** The rule chain on a stored wound *)

Section Rules.

Context {js : Builtins}.


(** C1, as amended: a stored wound whose [infection_signs] is "si"
    evaluates to [bajo_observacion] whatever its other columns hold, as
    long as rule 1 does not apply (rule 1: no treatment and less than
    one whole day since creation, which is tested first). *)
Theorem C1_infection_under_observation id w wound :
  wound_read id w = Some wound ->
  get wound "infection_signs" = JStr "si" ->
  rule1_applies id wound w = false ->
  result (evaluateStage id w) = Returned (JStr "bajo_observacion").
Proof.
  intros Hread Hinf H1.
  rewrite (evaluateStage_result _ _ _ Hread).
  unfold computed_stage, ruleCascade.
  unfold rule1_applies in H1. rewrite H1.
  unfold rule2, rule3. rewrite Hinf. cbn.
  by rewrite andb_false_r.
Qed.

(** C2, as amended: a stored wound with [pain_scale] 9 evaluates to
    [bajo_observacion] as long as neither rule 1 nor rule 2 applies
    (rule 2: one to three treatments and falsy [infection_signs]). *)
Theorem C2_severe_pain_under_observation id w wound q :
  wound_read id w = Some wound ->
  get wound "pain_scale" = JNum q ->
  (q == 9)%Q ->
  rule1_applies id wound w = false ->
  rule2_applies id wound w = false ->
  result (evaluateStage id w) = Returned (JStr "bajo_observacion").
Proof.
  intros Hread Hpain Hq H1 H2.
  rewrite (evaluateStage_result _ _ _ Hread).
  unfold computed_stage, ruleCascade.
  unfold rule1_applies in H1. unfold rule2_applies in H2.
  rewrite H1, H2.
  assert (Ht : truthy (JNum q) = true).
  { apply truthy_number. rewrite Hq. discriminate. }
  assert (Hg : js_gt (JNum q) 7 = true).
  { apply js_gt_number. rewrite Hq. reflexivity. }
  unfold rule3. rewrite Hpain, Ht, Hg. cbn.
  by rewrite orb_true_r.
Qed.


End Rules.

(** ** What a run sends and what it changes *)


Lemma sent_write_applied id s w :
  sent (write_applied id s w) = sent w ++ [UpdateWounds (stage_patch s) id].
Proof. unfold write_applied. by destruct (faults w _). Qed.

Lemma issued_log {A} (w : World) (o : Outcome A) (w' : World) (qs : list Request) :
  sent w' = sent w ++ qs -> issued w (o, w') = qs.
Proof. intros H. unfold issued, world_after. cbn. rewrite H. apply drop_app_length. Qed.

Lemma get_patched_other (s : JsVal) (r : Row) (k : string) :
  k <> "clinical_stage" -> get (stage_patch s ∪ r) k = get r k.
Proof.
  intros Hk. unfold get, stage_patch.
  rewrite lookup_union_r; [reflexivity|].
  by apply lookup_singleton_ne.
Qed.

Lemma get_patched_stage (s : JsVal) (r : Row) :
  get (stage_patch s ∪ r) "clinical_stage" = s.
Proof.
  unfold get, stage_patch.
  erewrite lookup_union_Some_l; [reflexivity|].
  apply lookup_singleton_eq.
Qed.

Lemma has_id_patched id s r : has_id id (stage_patch s ∪ r) = has_id id r.
Proof. unfold has_id. by rewrite get_patched_other. Qed.

Lemma delete_stage_patched id s r :
  delete "clinical_stage" (apply_patch (stage_patch s) id r) = delete "clinical_stage" r.
Proof.
  unfold apply_patch. destruct (has_id id r); [|reflexivity].
  unfold stage_patch. rewrite <- insert_union_singleton_l.
  apply delete_insert_eq.
Qed.

Lemma has_id_apply_patch id s r :
  has_id id (apply_patch (stage_patch s) id r) = has_id id r.
Proof.
  unfold apply_patch. destruct (has_id id r) eqn:E; [|exact E].
  by rewrite has_id_patched.
Qed.

Lemma filter_has_id_patched id s (tbl : list Row) :
  filter (fun r => has_id id r = true) (apply_patch (stage_patch s) id <$> tbl)
  = (fun r => stage_patch s ∪ r) <$> filter (fun r => has_id id r = true) tbl.
Proof.
  induction tbl as [|r tbl IH]; [reflexivity|].
  cbn [fmap list_fmap]. rewrite !filter_cons.
  destruct (decide (has_id id (apply_patch (stage_patch s) id r) = true)) as [H|H];
    rewrite has_id_apply_patch in H.
  - rewrite decide_True by done. cbn [fmap list_fmap]. f_equal; [|exact IH].
    unfold apply_patch. by rewrite H.
  - rewrite decide_False by done. exact IH.
Qed.

Section Effects.

Context {js : Builtins}.


(** The chain either leaves the stored stage or yields one of the five
    stage names. *)
Lemma ruleCascade_cases wound ts d :
  ruleCascade wound ts d = get wound "clinical_stage"
  \/ is_stage (ruleCascade wound ts d).
Proof.
  unfold Wounds.ruleCascade, is_stage, stage_names. cbv zeta.
  destruct (rule1 _ _); [right; eexists; split; [|reflexivity]; in_list|].
  destruct (rule2 _ _); [right; eexists; split; [|reflexivity]; in_list|].
  destruct (rule3 _ _ _ _); [right; eexists; split; [|reflexivity]; in_list|].
  destruct (rule4 _ _ _); [right; eexists; split; [|reflexivity]; in_list|].
  destruct (rule5 _); [right; eexists; split; [|reflexivity]; in_list|].
  by left.
Qed.

(** No rule reads the stored stage: once the computed stage is stored,
    the chain computes it again. *)
Lemma ruleCascade_patched wound ts d :
  ruleCascade (stage_patch (ruleCascade wound ts d) ∪ wound) ts d
  = ruleCascade wound ts d.
Proof.
  set (s := ruleCascade wound ts d).
  assert (Hget : forall k, k <> "clinical_stage" ->
                   get (stage_patch s ∪ wound) k = get wound k)
    by (intros; by apply get_patched_other).
  assert (E2 : rule2 (stage_patch s ∪ wound) (length ts) = rule2 wound (length ts)).
  { unfold rule2. by rewrite Hget. }
  assert (EN : _noImprovement (stage_patch s ∪ wound) ts
               = _noImprovement wound ts).
  { unfold _noImprovement. by rewrite !Hget. }
  assert (ES : _showsImprovement (stage_patch s ∪ wound) ts
               = _showsImprovement wound ts).
  { unfold _showsImprovement. by rewrite !Hget. }
  assert (E3 : rule3 (stage_patch s ∪ wound) ts (length ts) d
               = rule3 wound ts (length ts) d).
  { unfold rule3. rewrite EN. by rewrite !Hget. }
  assert (E4 : rule4 (stage_patch s ∪ wound) ts (length ts)
               = rule4 wound ts (length ts)).
  { unfold rule4. rewrite ES. by rewrite !Hget. }
  assert (E5 : rule5 (stage_patch s ∪ wound)
               = rule5 wound).
  { unfold rule5. by rewrite !Hget. }
  unfold Wounds.ruleCascade at 1. cbv zeta.
  rewrite E2, E3, E4, E5, get_patched_stage.
  clear Hget E2 EN ES E3 E4 E5.
  subst s. unfold Wounds.ruleCascade. cbv zeta.
  destruct (rule1 _ _); [reflexivity|].
  destruct (rule2 wound _); [reflexivity|].
  destruct (rule3 wound _ _ _); [reflexivity|].
  destruct (rule4 wound _ _); [reflexivity|].
  destruct (rule5 wound); reflexivity.
Qed.

Lemma evaluateStage_issued id w wound :
  wound_read id w = Some wound ->
  issued w (evaluateStage id w)
  = [SelectWoundSingle id; SelectTreatments id]
    ++ (if strict_eq (computed_stage id wound w) (get wound "clinical_stage")
        then []
        else [UpdateWounds (stage_patch (computed_stage id wound w)) id]).
Proof.
  intros H. rewrite evaluateStage_run, H. cbv zeta.
  destruct (strict_eq _ _); apply issued_log.
  - cbn. by rewrite <- app_assoc.
  - rewrite sent_write_applied. cbn. by rewrite <- !app_assoc.
Qed.

(** Whatever the run, every wound row keeps all its columns but
    [clinical_stage], and the treatments table is untouched. *)
Lemma evaluateStage_frame id w :
  delete "clinical_stage" <$> wounds_table (db (world_after (evaluateStage id w)))
  = delete "clinical_stage" <$> wounds_table (db w)
  /\ treatments_table (db (world_after (evaluateStage id w))) = treatments_table (db w).
Proof.
  rewrite evaluateStage_run.
  destruct (wound_read id w) as [wound|]; [|done].
  cbv zeta. destruct (strict_eq _ _); [done|].
  unfold world_after, write_applied. cbn.
  destruct (faults w _); cbn; [done|].
  split; [|reflexivity].
  rewrite <- list_fmap_compose. apply list_fmap_ext.
  intros i r _. cbn. apply delete_stage_patched.
Qed.

(** C4: on a run that found the wound, a stage write is issued exactly
    when the computed stage differs from the stored one; the write is
    the update of [clinical_stage] alone for that id; afterwards every
    wound row has all its other columns as before, no row was added or
    removed, and the treatments table is as it was. *)
Theorem C4_write_iff_stage_differs id w wound :
  wound_read id w = Some wound ->
  ((exists q, q ∈ issued w (evaluateStage id w) /\ is_stage_write q = true)
     <-> strict_eq (computed_stage id wound w) (get wound "clinical_stage") = false)
  /\ (forall q, q ∈ issued w (evaluateStage id w) -> is_stage_write q = true ->
        q = UpdateWounds {[ "clinical_stage" := computed_stage id wound w ]} id)
  /\ delete "clinical_stage" <$> wounds_table (db (world_after (evaluateStage id w)))
     = delete "clinical_stage" <$> wounds_table (db w)
  /\ treatments_table (db (world_after (evaluateStage id w))) = treatments_table (db w).
Proof.
  intros Hread. rewrite (evaluateStage_issued _ _ _ Hread).
  split; [|split; [|apply evaluateStage_frame]].
  - destruct (strict_eq _ _); split.
    + intros (q & Hq & Hw). cbn in Hq.
      apply elem_of_cons in Hq as [->|Hq]; [discriminate|].
      apply elem_of_cons in Hq as [->|Hq]; [discriminate|].
      by apply elem_of_nil in Hq.
    + discriminate.
    + reflexivity.
    + intros _. exists (UpdateWounds (stage_patch (computed_stage id wound w)) id).
      split; [in_list|reflexivity].
  - intros q Hq Hw. destruct (strict_eq _ _); cbn in Hq.
    + apply elem_of_cons in Hq as [->|Hq]; [discriminate|].
      apply elem_of_cons in Hq as [->|Hq]; [discriminate|].
      by apply elem_of_nil in Hq.
    + apply elem_of_cons in Hq as [->|Hq]; [discriminate|].
      apply elem_of_cons in Hq as [->|Hq]; [discriminate|].
      apply elem_of_cons in Hq as [->|Hq]; [reflexivity|].
      by apply elem_of_nil in Hq.
Qed.

(** C6: when the wound read yields no wound, [evaluateStage] returns
    null, the read is the only request it sends (so no stage write),
    and the tables are as they were. *)
Theorem C6_missing_wound id w :
  result (getById id w) = Returned None ->
  result (evaluateStage id w) = Returned JNull
  /\ issued w (evaluateStage id w) = [SelectWoundSingle id]
  /\ db (world_after (evaluateStage id w)) = db w.
Proof.
  rewrite getById_run. cbn. intros [= Hread].
  rewrite evaluateStage_run, Hread.
  split; [reflexivity|]. split; [|reflexivity].
  by apply issued_log.
Qed.

(** C8: when the stage write is issued and the backend fails it,
    [evaluateStage] still returns the computed stage, which is one of
    the five stage names and so not null; the stored row is unchanged. *)
Theorem C8_failed_write_still_returns id w wound :
  wound_read id w = Some wound ->
  strict_eq (computed_stage id wound w) (get wound "clinical_stage") = false ->
  faults w (UpdateWounds (stage_patch (computed_stage id wound w)) id) = true ->
  UpdateWounds (stage_patch (computed_stage id wound w)) id ∈ issued w (evaluateStage id w)
  /\ result (evaluateStage id w) = Returned (computed_stage id wound w)
  /\ is_stage (computed_stage id wound w)
  /\ result (evaluateStage id w) <> Returned JNull
  /\ db (world_after (evaluateStage id w)) = db w.
Proof.
  intros Hread Hne Hfail.
  assert (Hst : is_stage (computed_stage id wound w)).
  { destruct (ruleCascade_cases wound (treatments_read id w)
                (age_in_days wound w)) as [E|E]; [|exact E].
    unfold computed_stage in Hne. rewrite E, strict_eq_refl in Hne.
    discriminate. }
  rewrite (evaluateStage_issued _ _ _ Hread), Hne.
  rewrite (evaluateStage_result _ _ _ Hread).
  split; [in_list|]. split; [reflexivity|]. split; [exact Hst|].
  split.
  - destruct Hst as (n & _ & E). rewrite E. discriminate.
  - rewrite evaluateStage_run, Hread. cbv zeta. rewrite Hne.
    unfold world_after, write_applied. cbn. by rewrite Hfail.
Qed.

(** The run that follows an applied stage write reads the patched row
    and computes the same stage. *)
Lemma wound_read_after_write id s w wound :
  wound_read id w = Some wound ->
  faults w (UpdateWounds (stage_patch s) id) = false ->
  wound_read id (write_applied id s w) = Some (stage_patch s ∪ wound).
Proof.
  unfold wound_read, write_applied. intros Hread Hw. rewrite Hw. cbn.
  destruct (faults w (SelectWoundSingle id)); [discriminate|].
  rewrite filter_has_id_patched.
  destruct (filter _ (wounds_table (db w))) as [|r [|r' l]]; try discriminate.
  by injection Hread as ->.
Qed.

Lemma computed_stage_after_write id w wound :
  let s := computed_stage id wound w in
  let w2 := log [SelectTreatments id] (log [SelectWoundSingle id] w) in
  faults w (UpdateWounds (stage_patch s) id) = false ->
  computed_stage id (stage_patch s ∪ wound) (write_applied id s w2) = s.
Proof.
  intros s w2 Hw.
  unfold computed_stage, age_in_days, treatments_read, stored_treatments,
    write_applied.
  cbn. rewrite Hw. cbn.
  rewrite get_patched_other by done.
  apply ruleCascade_patched.
Qed.

(** C5: two calls in immediate succession, at the same instant, with the
    first call's write applied: the second call returns what the first
    returned, issues no stage write, and leaves the tables as the first
    call left them. *)
Theorem C5_second_call_is_a_no_op id w :
  (forall s, faults w (UpdateWounds (stage_patch s) id) = false) ->
  let first := evaluateStage id w in
  let second := evaluateStage id (world_after first) in
  clock (world_after first) = clock w
  /\ result second = result first
  /\ (forall q, q ∈ issued (world_after first) second -> is_stage_write q = false)
  /\ db (world_after second) = db (world_after first).
Proof.
  intros Hw. cbv zeta. unfold world_after, result.
  rewrite (evaluateStage_run id w).
  destruct (wound_read id w) as [wound|] eqn:Hread.
  - cbv zeta.
    destruct (strict_eq (computed_stage id wound w) (get wound "clinical_stage")) eqn:Hs.
    + (* the first call wrote nothing *)
      cbn [fst snd].
      set (w2 := log [SelectTreatments id] (log [SelectWoundSingle id] w)).
      assert (Hread2 : wound_read id w2 = Some wound) by exact Hread.
      assert (Hc : computed_stage id wound w2 = computed_stage id wound w)
        by reflexivity.
      rewrite (evaluateStage_issued _ _ _ Hread2), Hc, Hs.
      rewrite (evaluateStage_run id w2), Hread2. cbv zeta. rewrite Hc, Hs.
      repeat split.
      intros q Hq. cbn in Hq.
      apply elem_of_cons in Hq as [->|Hq]; [reflexivity|].
      apply elem_of_cons in Hq as [->|Hq]; [reflexivity|].
      by apply elem_of_nil in Hq.
    + (* the first call wrote the computed stage *)
      cbn [fst snd].
      set (s := computed_stage id wound w) in *.
      set (w2 := log [SelectTreatments id] (log [SelectWoundSingle id] w)).
      assert (Hw2 : faults w2 (UpdateWounds (stage_patch s) id) = false)
        by apply Hw.
      assert (Hread2 : wound_read id (write_applied id s w2)
                       = Some (stage_patch s ∪ wound)).
      { apply wound_read_after_write; [exact Hread|exact Hw2]. }
      assert (Hc : computed_stage id (stage_patch s ∪ wound) (write_applied id s w2) = s).
      { apply computed_stage_after_write. apply Hw. }
      rewrite (evaluateStage_issued _ _ _ Hread2), Hc.
      rewrite (evaluateStage_run id (write_applied id s w2)), Hread2.
      cbv zeta. rewrite Hc, get_patched_stage, strict_eq_refl.
      split; [|repeat split].
      * unfold write_applied. by rewrite Hw2.
      * intros q Hq. cbn in Hq.
        apply elem_of_cons in Hq as [->|Hq]; [reflexivity|].
        apply elem_of_cons in Hq as [->|Hq]; [reflexivity|].
        by apply elem_of_nil in Hq.
  - (* no wound: both calls return null *)
    cbn [fst snd].
    set (w1 := log [SelectWoundSingle id] w).
    assert (Hread1 : wound_read id w1 = None) by exact Hread.
    rewrite (evaluateStage_run id w1), Hread1.
    repeat split.
    intros q Hq. unfold issued, world_after in Hq. cbn in Hq.
    rewrite drop_app_length in Hq.
    apply elem_of_cons in Hq as [->|Hq]; [reflexivity|].
    by apply elem_of_nil in Hq.
Qed.

End Effects.

(** ** The helper predicate and the discharge rule *)

Section Helpers.

Context {js : Builtins}.




End Helpers.

(** ** Runs on the fixtures *)

Import Fixture.

(** A failed treatment-list read reaches the evaluator as an empty list. *)
Lemma listByWound_failure id w :
  faults w (SelectTreatments id) = true ->
  result (Treatments.listByWound id w) = Returned [].
Proof.
  intros H. rewrite listByWound_run. unfold result, treatments_read. cbn.
  by rewrite H.
Qed.

(** C1 as stated fails: an infected wound with no treatment, evaluated two
    hours after its registration, gets [valoracion_inicial] from rule 1. *)
Lemma C1_counterexample :
  wound_read "w1" infected_world = Some infected_wound
  /\ get infected_wound "infection_signs" = JStr "si"
  /\ result (run "w1" infected_world) = Returned (JStr "valoracion_inicial")
  /\ result (run "w1" infected_world) <> Returned (JStr "bajo_observacion").
Proof.
  split; [|split; [|split]]; vm_compute; try reflexivity.
  intros E. discriminate E.
Qed.

Lemma C1_witness :
  wound_read "w1" infected_later_world = Some infected_wound
  /\ get infected_wound "infection_signs" = JStr "si"
  /\ @rule1_applies builtins "w1" infected_wound infected_later_world = false
  /\ result (run "w1" infected_later_world) = Returned (JStr "bajo_observacion").
Proof.
  repeat (split; [vm_compute; reflexivity|]).
  apply (@C1_infection_under_observation builtins "w1" infected_later_world infected_wound);
    vm_compute; reflexivity.
Defined.

(** C2 as stated fails: pain 9 with two treatments and no infection signs
    recorded gets [tratamiento_en_curso] from rule 2. *)
Lemma C2_counterexample :
  wound_read "w1" painful_world = Some painful_wound
  /\ get painful_wound "pain_scale" = JNum 9
  /\ length (stored_treatments "w1" painful_world) = 2%nat
  /\ result (run "w1" painful_world) = Returned (JStr "tratamiento_en_curso")
  /\ result (run "w1" painful_world) <> Returned (JStr "bajo_observacion").
Proof.
  split; [|split; [|split; [|split]]]; vm_compute; try reflexivity.
  intros E. discriminate E.
Qed.

Lemma C2_witness :
  wound_read "w1" painful_untreated_world = Some painful_wound
  /\ get painful_wound "pain_scale" = JNum 9
  /\ @rule1_applies builtins "w1" painful_wound painful_untreated_world = false
  /\ rule2_applies "w1" painful_wound painful_untreated_world = false
  /\ result (run "w1" painful_untreated_world) = Returned (JStr "bajo_observacion").
Proof.
  repeat (split; [vm_compute; reflexivity|]).
  apply (@C2_severe_pain_under_observation builtins "w1" painful_untreated_world
           painful_wound 9); vm_compute; reflexivity.
Defined.



Lemma C4_witness :
  wound_read "w1" treated_world = Some (wound_w1 "valoracion_inicial")
  /\ ((exists q, q ∈ issued treated_world (run "w1" treated_world)
                 /\ is_stage_write q = true)
      <-> strict_eq
            (@computed_stage builtins "w1" (wound_w1 "valoracion_inicial") treated_world)
            (get (wound_w1 "valoracion_inicial") "clinical_stage") = false).
Proof.
  assert (Hread : wound_read "w1" treated_world = Some (wound_w1 "valoracion_inicial"))
    by (vm_compute; reflexivity).
  split; [exact Hread|].
  exact (proj1 (@C4_write_iff_stage_differs builtins "w1" treated_world
                  (wound_w1 "valoracion_inicial") Hread)).
Defined.

Lemma C5_witness :
  (forall s, faults treated_world (UpdateWounds (stage_patch s) "w1") = false)
  /\ result (run "w1" (world_after (run "w1" treated_world)))
     = result (run "w1" treated_world).
Proof.
  assert (Hw : forall s, faults treated_world (UpdateWounds (stage_patch s) "w1") = false)
    by (intros s; reflexivity).
  split; [exact Hw|].
  exact (proj1 (proj2 (@C5_second_call_is_a_no_op builtins "w1" treated_world Hw))).
Defined.

Lemma C6_witness :
  result (getById "w1" empty_world) = Returned None
  /\ result (run "w1" empty_world) = Returned JNull
  /\ issued empty_world (run "w1" empty_world) = [SelectWoundSingle "w1"]
  /\ db (world_after (run "w1" empty_world)) = db empty_world.
Proof.
  split; [vm_compute; reflexivity|].
  apply (@C6_missing_wound builtins "w1" empty_world).
  vm_compute. reflexivity.
Defined.

(** C7 fails on the code.  Wound "w1" has two treatments and the stage
    [tratamiento_en_curso]; two hours after its registration the backend
    fails the treatment list.  [listByWound] turns the failure into an
    empty list, rule 1 fires on it, and the evaluator overwrites the stage
    with [valoracion_inicial]. *)
Theorem C7_failed_list_read_is_evaluated :
  wound_read "w1" outage_world = Some (wound_w1 "tratamiento_en_curso")
  /\ length (stored_treatments "w1" outage_world) = 2%nat
  /\ faults outage_world (SelectTreatments "w1") = true
  /\ result (Treatments.listByWound "w1" outage_world) = Returned []
  /\ result (run "w1" outage_world) = Returned (JStr "valoracion_inicial")
  /\ issued outage_world (run "w1" outage_world)
     = [ SelectWoundSingle "w1"; SelectTreatments "w1";
         UpdateWounds {[ "clinical_stage" := JStr "valoracion_inicial" ]} "w1" ]
  /\ wounds_table (db (world_after (run "w1" outage_world)))
     = [wound_w1 "valoracion_inicial"].
Proof.
  repeat split; vm_compute; reflexivity.
Qed.

Lemma C8_witness :
  wound_read "w1" readonly_world = Some (wound_w1 "valoracion_inicial")
  /\ faults readonly_world
       (UpdateWounds (stage_patch (JStr "tratamiento_en_curso")) "w1") = true
  /\ result (run "w1" readonly_world) = Returned (JStr "tratamiento_en_curso").
Proof.
  assert (Hread : wound_read "w1" readonly_world = Some (wound_w1 "valoracion_inicial"))
    by (vm_compute; reflexivity).
  split; [exact Hread|]. split; [reflexivity|].
  refine (proj1 (proj2 (@C8_failed_write_still_returns builtins "w1" readonly_world
                          (wound_w1 "valoracion_inicial") Hread _ _)));
    vm_compute; reflexivity.
Defined.






(** * Further properties of the evaluator *)

(** ** Whole days *)

Lemma days_below_one (today c : Z) :
  num_lt (daysSince today (Some c)) (Finite 1) = true <-> today - c < one_day.
Proof.
  unfold num_lt, daysSince. cbn [number_lt].
  change (1000 * 60 * 60 * 24) with one_day.
  destruct (Qlt_bool _ _) eqn:E.
  - apply Qlt_bool_iff in E. change 1%Q with (inject_Z 1) in E.
    rewrite <- Zlt_Qlt in E. split; [intros _|reflexivity].
    unfold one_day in *. Z.to_euclidean_division_equations. lia.
  - split; [discriminate|]. intros H. exfalso.
    assert (Hq : (inject_Z ((today - c) / one_day) < inject_Z 1)%Q).
    { rewrite <- Zlt_Qlt. unfold one_day in *. apply Z.div_lt_upper_bound; lia. }
    apply Qlt_bool_iff in Hq. change (inject_Z 1) with 1%Q in Hq. congruence.
Qed.

Lemma days_above_fourteen (today c : Z) :
  num_gt (daysSince today (Some c)) (Finite 14) = true <-> 15 * one_day <= today - c.
Proof.
  unfold num_gt, num_lt, daysSince. cbn [number_lt].
  change (1000 * 60 * 60 * 24) with one_day.
  destruct (Qlt_bool _ _) eqn:E.
  - apply Qlt_bool_iff in E. change 14%Q with (inject_Z 14) in E.
    rewrite <- Zlt_Qlt in E. split; [intros _|reflexivity].
    unfold one_day in *. Z.to_euclidean_division_equations. lia.
  - split; [discriminate|]. intros H. exfalso.
    assert (Hq : (inject_Z 14 < inject_Z ((today - c) / one_day))%Q).
    { rewrite <- Zlt_Qlt. unfold one_day in *.
      assert (15 <= (today - c) / (1000 * 60 * 60 * 24)); [|lia].
      apply Z.div_le_lower_bound; lia. }
    apply Qlt_bool_iff in Hq. change (inject_Z 14) with 14%Q in Hq. congruence.
Qed.

Lemma days_of_invalid_date (today : Z) (n : JsNumber) :
  num_lt (daysSince today None) n = false /\ num_gt (daysSince today None) n = false.
Proof. unfold num_gt, num_lt, daysSince. cbn. by destruct n. Qed.

(** ** The rules one by one *)

Section MoreRules.

Context {js : Builtins}.

Lemma treatments_read_none id w :
  stored_treatments id w = [] -> treatments_read id w = [].
Proof.
  intros H. unfold treatments_read. rewrite H. by destruct (faults w _).
Qed.

(** X1: A wound without treatments, evaluated less than one day after its
    creation, gets [valoracion_inicial] whatever its other columns hold;
    if that is already its stage, nothing is written. *)
Theorem fresh_wound_is_initial id w wound c :
  wound_read id w = Some wound ->
  stored_treatments id w = [] ->
  new_Date (get wound "created_at") = Some c ->
  clock w - c < one_day ->
  result (evaluateStage id w) = Returned (JStr "valoracion_inicial")
  /\ (get wound "clinical_stage" = JStr "valoracion_inicial" ->
      no_stage_write (issued w (evaluateStage id w))).
Proof.
  intros Hread Hnone Hdate Hage.
  assert (Hc : computed_stage id wound w = JStr "valoracion_inicial").
  { unfold computed_stage, age_in_days, ruleCascade.
    rewrite (treatments_read_none _ _ Hnone), Hdate. cbn [length].
    unfold rule1. apply days_below_one in Hage. by rewrite Hage. }
  split.
  - by rewrite (evaluateStage_result _ _ _ Hread), Hc.
  - intros Hst q Hq.
    rewrite (evaluateStage_issued _ _ _ Hread), Hc, Hst in Hq. cbn in Hq.
    apply elem_of_cons in Hq as [->|Hq]; [reflexivity|].
    apply elem_of_cons in Hq as [->|Hq]; [reflexivity|].
    by apply elem_of_nil in Hq.
Qed.

(** X2: A wound with more than five treatments, at least fifteen whole days
    old, for which [_noImprovement] holds, gets [bajo_observacion]. *)
Theorem stalled_wound_under_observation id w wound c :
  wound_read id w = Some wound ->
  faults w (SelectTreatments id) = false ->
  (5 < length (stored_treatments id w))%nat ->
  new_Date (get wound "created_at") = Some c ->
  15 * one_day <= clock w - c ->
  _noImprovement wound (treatments_read id w) = true ->
  result (evaluateStage id w) = Returned (JStr "bajo_observacion").
Proof.
  intros Hread Hok Hn Hdate Hage Hno.
  rewrite (evaluateStage_result _ _ _ Hread).
  unfold computed_stage, age_in_days, ruleCascade. rewrite Hdate.
  rewrite (treatments_read_ok _ _ Hok).
  set (n := length (stored_treatments id w)) in *.
  assert (E1 : rule1 n (daysSince (clock w) (Some c)) = false).
  { unfold rule1. destruct n; [lia|reflexivity]. }
  assert (E2 : rule2 wound n = false).
  { unfold rule2. assert (E : (n <=? 3)%nat = false) by (apply Nat.leb_gt; lia).
    by rewrite E, andb_false_r. }
  assert (E3 : rule3 wound (treatments_read id w) n (daysSince (clock w) (Some c)) = true).
  { unfold rule3. apply days_above_fourteen in Hage. rewrite Hage, Hno.
    assert (E : (5 <? n)%nat = true) by (apply Nat.ltb_lt; lia).
    rewrite E. cbn. apply orb_true_r. }
  by rewrite E1, E2, E3.
Qed.

(** X3: A wound with more than three treatments, falsy [infection_signs],
    [pain_scale] null or at most 5, on which rule 3 does not fire and for
    which [_showsImprovement] holds, gets [evolucion_favorable]. *)
Theorem improving_wound_is_favorable id w wound :
  wound_read id w = Some wound ->
  faults w (SelectTreatments id) = false ->
  (3 < length (stored_treatments id w))%nat ->
  truthy (get wound "infection_signs") = false ->
  get wound "pain_scale" = JNull \/ number_at_most (get wound "pain_scale") 5 ->
  rule3_applies id wound w = false ->
  _showsImprovement wound (treatments_read id w) = true ->
  result (evaluateStage id w) = Returned (JStr "evolucion_favorable").
Proof.
  intros Hread Hok Hn Hinf Hpain H3 Hshow.
  rewrite (evaluateStage_result _ _ _ Hread).
  unfold computed_stage, ruleCascade.
  unfold rule3_applies in H3. rewrite H3.
  rewrite (treatments_read_ok _ _ Hok).
  set (n := length (stored_treatments id w)) in *.
  assert (E1 : rule1 n (age_in_days wound w) = false).
  { unfold rule1. destruct n; [lia|reflexivity]. }
  assert (E2 : rule2 wound n = false).
  { unfold rule2. assert (E : (n <=? 3)%nat = false) by (apply Nat.leb_gt; lia).
    by rewrite E, andb_false_r. }
  assert (E4 : rule4 wound (treatments_read id w) n = true).
  { unfold rule4. rewrite Hinf, Hshow.
    assert (E : (3 <? n)%nat = true) by (apply Nat.ltb_lt; lia).
    rewrite E. cbn.
    destruct Hpain as [->|(p & -> & Hp)]; [reflexivity|].
    apply (js_le_number p 5) in Hp. rewrite Hp. cbn. reflexivity. }
  by rewrite E1, E2, E4.
Qed.

(** X4: When no rule fires the stored stage is returned as it is, only the
    two reads are sent, and the tables stay as they were. *)
Theorem no_rule_no_change id w wound :
  wound_read id w = Some wound ->
  some_rule_applies id wound w = false ->
  result (evaluateStage id w) = Returned (get wound "clinical_stage")
  /\ issued w (evaluateStage id w) = [SelectWoundSingle id; SelectTreatments id]
  /\ db (world_after (evaluateStage id w)) = db w.
Proof.
  intros Hread Hnone.
  unfold some_rule_applies, rule1_applies, rule2_applies, rule3_applies,
    rule4_applies in Hnone.
  repeat (apply orb_false_iff in Hnone as [Hnone ?]).
  assert (Hc : computed_stage id wound w = get wound "clinical_stage").
  { unfold computed_stage, ruleCascade.
    repeat match goal with H : _ = false |- _ => rewrite H; clear H end.
    reflexivity. }
  rewrite (evaluateStage_result _ _ _ Hread), (evaluateStage_issued _ _ _ Hread).
  rewrite evaluateStage_run, Hread. cbv zeta.
  rewrite Hc, strict_eq_refl. done.
Qed.

(** X5: A wound whose [infection_signs] is "si" gets [valoracion_inicial] when
    rule 1 fires and [bajo_observacion] otherwise: never another stage. *)
Theorem infected_wound_stage id w wound :
  wound_read id w = Some wound ->
  get wound "infection_signs" = JStr "si" ->
  result (evaluateStage id w)
  = Returned (JStr (if rule1_applies id wound w
                    then "valoracion_inicial" else "bajo_observacion")).
Proof.
  intros Hread Hinf.
  rewrite (evaluateStage_result _ _ _ Hread).
  unfold computed_stage, ruleCascade, rule1_applies.
  destruct (rule1 _ _); [reflexivity|].
  unfold rule2, rule3. rewrite Hinf. cbn. by rewrite andb_false_r.
Qed.

(** X6: With a [created_at] that does not parse, rule 1 cannot fire: the
    evaluator returns [valoracion_inicial] only when that is the stored
    stage. *)
Theorem invalid_date_never_resets id w wound :
  wound_read id w = Some wound ->
  new_Date (get wound "created_at") = None ->
  result (evaluateStage id w) = Returned (JStr "valoracion_inicial") ->
  get wound "clinical_stage" = JStr "valoracion_inicial".
Proof.
  intros Hread Hdate.
  rewrite (evaluateStage_result _ _ _ Hread).
  unfold computed_stage, age_in_days, ruleCascade. rewrite Hdate.
  unfold rule1. rewrite (proj1 (days_of_invalid_date (clock w) (Finite 1))).
  rewrite andb_false_r.
  destruct (rule2 _ _); [discriminate|].
  destruct (rule3 _ _ _ _); [discriminate|].
  destruct (rule4 _ _ _); [discriminate|].
  destruct (rule5 _); [discriminate|].
  congruence.
Qed.

End MoreRules.

(** ** Invariants of the evaluator *)

Section Invariants.

Context {js : Builtins}.

Lemma computed_stage_cases id wound w :
  computed_stage id wound w = get wound "clinical_stage"
  \/ is_stage (computed_stage id wound w).
Proof. apply ruleCascade_cases. Qed.

Lemma is_stage_patched id s r :
  is_stage s ->
  is_stage (get r "clinical_stage") ->
  is_stage (get (apply_patch (stage_patch s) id r) "clinical_stage").
Proof.
  intros Hs Hr. unfold apply_patch. destruct (has_id id r); [|exact Hr].
  by rewrite get_patched_stage.
Qed.

(** X7: The evaluator keeps the [clinical_stage] column within the five stage
    names: if every stored wound has one of them, so does every stored
    wound after any run, whatever the backend fails. *)
Theorem stage_names_preserved id w :
  stages_valid (db w) ->
  stages_valid (db (world_after (evaluateStage id w))).
Proof.
  intros Hvalid. rewrite evaluateStage_run.
  destruct (wound_read id w) as [wound|]; [|exact Hvalid].
  cbv zeta.
  destruct (strict_eq (computed_stage id wound w) (get wound "clinical_stage")) eqn:Hs;
    [exact Hvalid|].
  unfold world_after, write_applied. cbn.
  destruct (faults w _); [exact Hvalid|]. cbn.
  assert (Hst : is_stage (computed_stage id wound w)).
  { destruct (computed_stage_cases id wound w) as [E|E]; [|exact E].
    rewrite E, strict_eq_refl in Hs. discriminate. }
  unfold stages_valid in *. cbn.
  apply Forall_fmap. eapply Forall_impl; [exact Hvalid|].
  intros r Hr. cbn. by apply is_stage_patched.
Qed.

(** [_noImprovement] never looks at the treatments, and
    [_showsImprovement] only at how many there are. *)
Lemma helpers_use_count_only wound ts ts' :
  length ts = length ts' ->
  _noImprovement wound ts = _noImprovement wound ts'
  /\ _showsImprovement wound ts = _showsImprovement wound ts'.
Proof.
  intros H. split; [reflexivity|]. unfold _showsImprovement. by rewrite H.
Qed.

Lemma ruleCascade_count_only wound ts ts' d :
  length ts = length ts' ->
  ruleCascade wound ts d = ruleCascade wound ts' d.
Proof.
  intros H. unfold ruleCascade, rule3, rule4.
  destruct (helpers_use_count_only wound ts ts' H) as [-> ->].
  by rewrite H.
Qed.

(** X8: The stage returned depends on the treatments only through their
    number: two worlds that hold the same wound and clock and as many
    treatments for it give the same result. *)
Theorem evaluation_uses_count_only id w w' wound :
  wound_read id w = Some wound ->
  wound_read id w' = Some wound ->
  clock w = clock w' ->
  length (treatments_read id w) = length (treatments_read id w') ->
  result (evaluateStage id w) = result (evaluateStage id w').
Proof.
  intros Hread Hread' Hclock Hlen.
  rewrite (evaluateStage_result _ _ _ Hread), (evaluateStage_result _ _ _ Hread').
  unfold computed_stage, age_in_days. rewrite Hclock.
  f_equal. by apply ruleCascade_count_only.
Qed.

End Invariants.

(** ** The improvement helper *)

Section Improvement.

Context {js : Builtins}.

Lemma pain_test_numeric (v : JsVal) (n : Q) :
  numeric_or_absent v ->
  negb (strict_eq v JNull) && js_le v n = true <-> number_at_most v n.
Proof.
  intros [->|[->|[q ->]]].
  - split; [discriminate|]. by intros (q & ? & _).
  - split; [discriminate|]. by intros (q & ? & _).
  - cbn [strict_eq negb andb]. rewrite js_le_number. split.
    + intros Hq. by exists q.
    + by intros (q' & [= <-] & Hq).
Qed.

Lemma size_test_present (v : JsVal) (n : Q) :
  absent_or_nonzero v ->
  truthy v && js_lt v n = true <-> number_below v n.
Proof.
  intros [->|[->|(q & -> & Hq)]].
  - split; [discriminate|]. by intros (q & ? & _).
  - split; [discriminate|]. by intros (q & ? & _).
  - apply truthy_number in Hq. rewrite Hq. cbn [andb]. rewrite js_lt_number. split.
    + intros Hlt. by exists q.
    + by intros (q' & [= <-] & Hlt).
Qed.

(** X9: On a wound whose [pain_scale] is a number or nothing and whose
    measurements are each nothing or a number other than zero,
    [_showsImprovement] holds exactly when there are at least two
    treatments and [exudate_amount] is "escaso" or "moderado", or
    [pain_scale] is a number at most 4, or both measurements are below 5. *)
Theorem showsImprovement_iff wound ts :
  numeric_or_absent (get wound "pain_scale") ->
  absent_or_nonzero (get wound "length_cm") ->
  absent_or_nonzero (get wound "width_cm") ->
  _showsImprovement wound ts = true
  <-> (2 <= length ts)%nat
      /\ (get wound "exudate_amount" = JStr "escaso"
          \/ get wound "exudate_amount" = JStr "moderado"
          \/ number_at_most (get wound "pain_scale") 4
          \/ (number_below (get wound "length_cm") 5
              /\ number_below (get wound "width_cm") 5)).
Proof.
  intros Hp Hl Hw.
  rewrite <- !strict_eq_str.
  rewrite <- (pain_test_numeric _ 4 Hp).
  rewrite <- (size_test_present _ 5 Hl), <- (size_test_present _ 5 Hw).
  unfold _showsImprovement.
  destruct (length ts <? 2)%nat eqn:En.
  { apply Nat.ltb_lt in En. split; [discriminate|]. intros [? _]. lia. }
  apply Nat.ltb_ge in En.
  destruct (strict_eq (get wound "exudate_amount") (JStr "escaso")); cbn [orb].
  { split; [intros _|reflexivity]. split; [exact En|by left]. }
  destruct (strict_eq (get wound "exudate_amount") (JStr "moderado")).
  { split; [intros _|reflexivity]. split; [exact En|by right; left]. }
  destruct (negb (strict_eq (get wound "pain_scale") JNull)
            && js_le (get wound "pain_scale") 4).
  { split; [intros _|reflexivity]. split; [exact En|by right; right; left]. }
  destruct (truthy (get wound "length_cm")), (truthy (get wound "width_cm")),
    (js_lt (get wound "length_cm") 5), (js_lt (get wound "width_cm") 5);
    cbn;
    (split;
     [ intros E;
       first [ discriminate E
             | split; [exact En|]; right; right; right; split; reflexivity ]
     | intros [_ [?|[?|[?|[? ?]]]]]; try discriminate; reflexivity ]).
Qed.

(** With fewer than two treatments [_showsImprovement] is false whatever
    the wound holds, so rule 4 cannot fire. *)
Lemma showsImprovement_needs_two wound ts :
  (length ts < 2)%nat -> _showsImprovement wound ts = false.
Proof.
  intros H. unfold _showsImprovement. apply Nat.ltb_lt in H. by rewrite H.
Qed.

End Improvement.

(** ** Manual override and the next evaluation *)

Section Override.

Context {js : Builtins}.





End Override.

(** * The form handlers *)

(** ** Cleaning a form *)

Lemma strict_eq_null (v : JsVal) : strict_eq v JNull = true <-> v = JNull.
Proof. destruct v; cbn; split; congruence. Qed.

Lemma strict_eq_undefined (v : JsVal) : strict_eq v JUndefined = true <-> v = JUndefined.
Proof. destruct v; cbn; split; congruence. Qed.

Lemma kept_iff (v : JsVal) :
  kept v = true <-> v <> JNull /\ v <> JStr "" /\ v <> JUndefined.
Proof.
  unfold kept. rewrite !andb_true_iff, !negb_true_iff.
  rewrite <- strict_eq_null, <- (strict_eq_str v ""), <- strict_eq_undefined.
  destruct (strict_eq v JNull), (strict_eq v (JStr "")), (strict_eq v JUndefined);
    intuition congruence.
Qed.

Lemma kept_truthy (v : JsVal) : truthy v = true -> kept v = true.
Proof.
  intros H. apply kept_iff. repeat split; intros ->; discriminate.
Qed.

Lemma lookup_cleanData (m : Row) (k : string) (v : JsVal) :
  cleanData m !! k = Some v <-> m !! k = Some v /\ kept v = true.
Proof. unfold cleanData. by rewrite map_lookup_filter_Some. Qed.

Lemma json_body_cleanData (m : Row) : json_body (cleanData m) = cleanData m.
Proof.
  unfold json_body. apply map_filter_id. intros k v Hk. cbn.
  apply lookup_cleanData in Hk as [_ Hk]. apply kept_iff in Hk as (_ & _ & Hu).
  destruct (strict_eq v JUndefined) eqn:E; [|reflexivity].
  apply strict_eq_undefined in E. contradiction.
Qed.

(** Reading a property of the cleaned form: the value when it was kept,
    [undefined] when it was left out. *)
Lemma get_cleanData (m : Row) (k : string) :
  get (cleanData m) k = if kept (get m k) then get m k else JUndefined.
Proof.
  unfold get. destruct (m !! k) as [v|] eqn:Hm; cbn.
  - destruct (kept v) eqn:Hv.
    + assert (H : cleanData m !! k = Some v) by (by apply lookup_cleanData).
      by rewrite H.
    + destruct (cleanData m !! k) as [v'|] eqn:Hc; [|reflexivity].
      apply lookup_cleanData in Hc as [Hc Hk]. congruence.
  - destruct (cleanData m !! k) as [v'|] eqn:Hc; [|reflexivity].
    apply lookup_cleanData in Hc as [Hc _]. congruence.
Qed.

Lemma truthy_cleanData (m : Row) (k : string) :
  truthy (get (cleanData m) k) = truthy (get m k).
Proof.
  rewrite get_cleanData. destruct (kept (get m k)) eqn:E; [reflexivity|].
  destruct (truthy (get m k)) eqn:Ht; [|reflexivity].
  apply kept_truthy in Ht. congruence.
Qed.

Lemma get_insert_eq (m : Row) (k : string) (v : JsVal) : get (<[ k := v ]> m) k = v.
Proof. unfold get. by rewrite lookup_insert_eq. Qed.

Lemma get_insert_ne (m : Row) (k k' : string) (v : JsVal) :
  k <> k' -> get (<[ k := v ]> m) k' = get m k'.
Proof. intros H. unfold get. by rewrite lookup_insert_ne. Qed.

(** ** The page after a handler *)

Lemma page_after_handler (message : string) (d : Document) :
  page_after message d
    (setLoader false (showToast message None None (setLoader true d))).
Proof.
  unfold page_after, setLoader, showToast. destruct d as [[h|] ts]; cbn; done.
Qed.

(** ** [wounds.create] *)

Lemma wounds_create_run patientId data a :
  WoundsCrud.create patientId data a =
    let sent := inserted a ++ [("wounds", wound_payload patientId data)] in
    let shown message :=
      setLoader false (showToast message None None (setLoader true (document a))) in
    if truthy patientId then
      match wound_insert a (wound_payload patientId data) with
      | inr row =>
          (Returned (Some row),
           mkApp (with_tables
                    (mkDatabase (wounds_table (db (backend a)) ++ [row])
                                (treatments_table (db (backend a))))
                    (backend a))
                 (shown "Herida registrada correctamente")
                 (wound_insert a) (treatment_insert a) sent (evaluator_loaded a))
      | inl e =>
          (Returned None,
           mkApp (backend a) (shown ("Error al crear herida: " +:+ e))
                 (wound_insert a) (treatment_insert a) sent (evaluator_loaded a))
      end
    else
      (Returned None,
       mkApp (backend a) (shown "Error al crear herida: patient_id es requerido")
             (wound_insert a) (treatment_insert a) (inserted a) (evaluator_loaded a)).
Proof.
  unfold WoundsCrud.create, try_catch_finally, wound_payload.
  unfold mbind, app_mbind, app_bind, mret, app_mret, app_ret, app_throw, ui,
    insert_wound.
  cbn. rewrite truthy_cleanData, get_insert_eq.
  destruct (truthy patientId); cbn; [|reflexivity].
  destruct (wound_insert a _); reflexivity.
Qed.

(** X11: [wounds.create] with a falsy patient id (null, undefined, the empty
    string, zero or false) returns null, sends nothing, leaves the tables
    alone and shows the message of the missing id. *)
Theorem create_needs_patient patientId data a :
  truthy patientId = false ->
  fst (WoundsCrud.create patientId data a) = Returned None
  /\ inserted (snd (WoundsCrud.create patientId data a)) = inserted a
  /\ backend (snd (WoundsCrud.create patientId data a)) = backend a
  /\ page_after "Error al crear herida: patient_id es requerido"
       (document a) (document (snd (WoundsCrud.create patientId data a))).
Proof.
  intros H. rewrite wounds_create_run. cbv zeta. rewrite H. cbn.
  do 3 (split; [reflexivity|]). apply page_after_handler.
Qed.

Lemma lookup_wound_payload patientId data k v :
  wound_payload patientId data !! k = Some v
  <-> <[ "patient_id" := patientId ]>
        (<[ "clinical_stage" := JStr "valoracion_inicial" ]> data) !! k = Some v
      /\ kept v = true.
Proof. unfold wound_payload. by rewrite json_body_cleanData, lookup_cleanData. Qed.

(** X12: With a truthy patient id, [wounds.create] sends one insert.  Its
    payload names that patient and the stage [valoracion_inicial],
    whatever the form said about either; it holds no null, empty string or
    undefined; and every other property of the form is in it exactly when
    its value is none of those three (zero and false are sent). *)
Theorem create_sends_clean_payload patientId data a :
  truthy patientId = true ->
  inserted (snd (WoundsCrud.create patientId data a))
  = inserted a ++ [("wounds", wound_payload patientId data)]
  /\ get (wound_payload patientId data) "clinical_stage" = JStr "valoracion_inicial"
  /\ get (wound_payload patientId data) "patient_id" = patientId
  /\ (forall k v, wound_payload patientId data !! k = Some v ->
        v <> JNull /\ v <> JStr "" /\ v <> JUndefined)
  /\ (forall k v, k <> "clinical_stage" -> k <> "patient_id" ->
        wound_payload patientId data !! k = Some v
        <-> data !! k = Some v /\ v <> JNull /\ v <> JStr "" /\ v <> JUndefined).
Proof.
  intros Hp. split; [|split; [|split; [|split]]].
  - rewrite wounds_create_run. cbv zeta. rewrite Hp.
    by destruct (wound_insert a _).
  - unfold wound_payload. rewrite json_body_cleanData, get_cleanData.
    rewrite get_insert_ne by done. by rewrite get_insert_eq.
  - unfold wound_payload. rewrite json_body_cleanData, get_cleanData.
    rewrite get_insert_eq. by rewrite (kept_truthy _ Hp).
  - intros k v Hk. apply lookup_wound_payload in Hk as [_ Hk]. by apply kept_iff.
  - intros k v H1 H2. rewrite lookup_wound_payload, kept_iff.
    by rewrite !lookup_insert_ne by done.
Qed.

(** ** [wounds.update] *)

Lemma wounds_update_run woundId updates a :
  WoundsCrud.update woundId updates a =
    let patch := json_body updates in
    let shown message :=
      setLoader false (showToast message None None (setLoader true (document a))) in
    if faults (backend a) (UpdateWounds patch woundId) then
      (Returned false,
       mkApp (log [UpdateWounds patch woundId] (backend a))
             (shown "Error al actualizar herida")
             (wound_insert a) (treatment_insert a) (inserted a) (evaluator_loaded a))
    else
      (Returned true,
       mkApp (mkWorld
                (mkDatabase (apply_patch patch woundId <$> wounds_table (db (backend a)))
                            (treatments_table (db (backend a))))
                (clock (backend a)) (faults (backend a))
                (sent (backend a) ++ [UpdateWounds patch woundId]))
             (shown "Herida actualizada")
             (wound_insert a) (treatment_insert a) (inserted a) (evaluator_loaded a)).
Proof.
  unfold WoundsCrud.update, try_catch_finally, lift, update_wounds, send.
  unfold mbind, app_mbind, app_bind, async_bind, bind, mret, app_mret, app_ret,
    app_throw, ui, ret.
  cbn. destruct (faults (backend a) _); reflexivity.
Qed.

Lemma apply_patch_other (patch : Row) id (r : Row) :
  has_id id r = false -> apply_patch patch id r = r.
Proof. intros H. unfold apply_patch. by rewrite H. Qed.



(** X14: [wounds.update] on an id that no stored wound has still returns true
    and shows "Herida actualizada", with the tables as they were, as long
    as the backend does not fail the request. *)
Theorem update_of_missing_wound woundId updates a :
  faults (backend a) (UpdateWounds (json_body updates) woundId) = false ->
  Forall (fun r => has_id woundId r = false) (wounds_table (db (backend a))) ->
  fst (WoundsCrud.update woundId updates a) = Returned true
  /\ db (backend (snd (WoundsCrud.update woundId updates a))) = db (backend a)
  /\ page_after "Herida actualizada"
       (document a) (document (snd (WoundsCrud.update woundId updates a))).
Proof.
  intros Hok Hnone. rewrite wounds_update_run. cbv zeta. rewrite Hok. cbn.
  split; [reflexivity|]. split; [|apply page_after_handler].
  destruct (db (backend a)) as [ws ts]. cbn in *. f_equal.
  induction Hnone as [|r l Hr _ IH]; [reflexivity|].
  cbn. by rewrite (apply_patch_other _ _ _ Hr), IH.
Qed.

(** ** [treatments.create] *)

Section TreatmentForm.

Context {js : Builtins} {fmt : DateFormat}.

Lemma evaluateStage_returns id w :
  exists v, evaluateStage id w = (Returned v, world_after (evaluateStage id w)).
Proof.
  rewrite evaluateStage_run. destruct (wound_read id w) as [wound|].
  - cbv zeta. destruct (strict_eq _ _); eexists; reflexivity.
  - eexists; reflexivity.
Qed.

Lemma treatments_create_run woundId data a :
  TreatmentsCrud.create woundId data a =
    let payload := treatment_payload woundId data (clock (backend a)) in
    let sent := inserted a ++ [("treatments", payload)] in
    let shown message :=
      setLoader false (showToast message None None (setLoader true (document a))) in
    if truthy (JStr woundId) && truthy (get data "technique") then
      match treatment_insert a payload with
      | inr t =>
          let w1 := with_tables
                      (mkDatabase (wounds_table (db (backend a)))
                                  (treatments_table (db (backend a)) ++ [t]))
                      (backend a) in
          (Returned (Some t),
           mkApp (if evaluator_loaded a
                  then world_after (evaluateStage woundId w1) else w1)
                 (shown "Curación registrada correctamente")
                 (wound_insert a) (treatment_insert a) sent (evaluator_loaded a))
      | inl e =>
          (Returned None,
           mkApp (backend a) (shown ("Error al registrar curación: " +:+ e))
                 (wound_insert a) (treatment_insert a) sent (evaluator_loaded a))
      end
    else
      (Returned None,
       mkApp (backend a)
             (shown "Error al registrar curación: wound_id y technique son requeridos")
             (wound_insert a) (treatment_insert a) (inserted a) (evaluator_loaded a)).
Proof.
  unfold TreatmentsCrud.create, try_catch_finally, treatment_payload.
  unfold mbind, app_mbind, app_bind, mret, app_mret, app_ret, app_throw, ui,
    insert_treatment, lift, new_Date_now.
  cbn -[truthy]. rewrite !truthy_cleanData.
  rewrite (get_insert_ne _ "created_at" "wound_id") by done.
  rewrite get_insert_eq.
  rewrite (get_insert_ne _ "created_at" "technique") by done.
  rewrite (get_insert_ne _ "wound_id" "technique") by done.
  rewrite <- negb_andb.
  destruct (truthy (JStr woundId) && truthy (get data "technique")); cbn -[truthy];
    [|reflexivity].
  destruct (treatment_insert a _) as [e|t]; [reflexivity|].
  cbn -[truthy]. destruct (evaluator_loaded a); [|reflexivity].
  cbn -[truthy].
  match goal with
  | |- context [evaluateStage woundId ?w] =>
      destruct (evaluateStage_returns woundId w) as [v Hv]; rewrite Hv
  end.
  reflexivity.
Qed.

(** X15: [treatments.create] with an empty wound id or a falsy technique
    (absent, null, the empty string, zero or false) returns null, sends
    nothing, does not run the evaluator and shows the message of the
    required fields. *)
Theorem treatment_needs_wound_and_technique woundId data a :
  woundId = "" \/ truthy (get data "technique") = false ->
  fst (TreatmentsCrud.create woundId data a) = Returned None
  /\ inserted (snd (TreatmentsCrud.create woundId data a)) = inserted a
  /\ backend (snd (TreatmentsCrud.create woundId data a)) = backend a
  /\ page_after "Error al registrar curación: wound_id y technique son requeridos"
       (document a) (document (snd (TreatmentsCrud.create woundId data a))).
Proof.
  intros H. rewrite treatments_create_run. cbv zeta.
  assert (E : truthy (JStr woundId) && truthy (get data "technique") = false).
  { destruct H as [->|H]; [reflexivity|]. rewrite H. apply andb_false_r. }
  rewrite E. cbn.
  do 3 (split; [reflexivity|]). apply page_after_handler.
Qed.

(** X16: Once the backend has stored the treatment, [treatments.create] returns
    it whatever becomes of the stage evaluation that follows: the reads
    and the write of the evaluator may all fail.  The treatment is the one
    row added to the treatments table. *)
Theorem treatment_survives_evaluation woundId data a t :
  woundId <> "" ->
  truthy (get data "technique") = true ->
  treatment_insert a (treatment_payload woundId data (clock (backend a))) = inr t ->
  fst (TreatmentsCrud.create woundId data a) = Returned (Some t)
  /\ treatments_table (db (backend (snd (TreatmentsCrud.create woundId data a))))
     = treatments_table (db (backend a)) ++ [t]
  /\ page_after "Curación registrada correctamente"
       (document a) (document (snd (TreatmentsCrud.create woundId data a))).
Proof.
  intros Hid Htech Hins. rewrite treatments_create_run. cbv zeta.
  assert (E : truthy (JStr woundId) = true).
  { cbn. destruct (String.eqb woundId "") eqn:Es; [|reflexivity].
    apply String.eqb_eq in Es. contradiction. }
  rewrite E, Htech, Hins. cbn [andb fst snd backend document].
  split; [reflexivity|]. split; [|apply page_after_handler].
  destruct (evaluator_loaded a); [|reflexivity].
  by rewrite (proj2 (evaluateStage_frame woundId _)).
Qed.

(** X17: When the backend refuses the treatment, [treatments.create] returns
    null, the evaluator is not run (no request of its layer is sent and the
    tables are as they were), and the backend's message is shown. *)
Theorem refused_treatment_is_not_evaluated woundId data a e :
  woundId <> "" ->
  truthy (get data "technique") = true ->
  treatment_insert a (treatment_payload woundId data (clock (backend a))) = inl e ->
  fst (TreatmentsCrud.create woundId data a) = Returned None
  /\ backend (snd (TreatmentsCrud.create woundId data a)) = backend a
  /\ page_after ("Error al registrar curación: " +:+ e)
       (document a) (document (snd (TreatmentsCrud.create woundId data a))).
Proof.
  intros Hid Htech Hins. rewrite treatments_create_run. cbv zeta.
  assert (E : truthy (JStr woundId) = true).
  { cbn. destruct (String.eqb woundId "") eqn:Es; [|reflexivity].
    apply String.eqb_eq in Es. contradiction. }
  rewrite E, Htech, Hins. cbn [andb fst snd backend document].
  do 2 (split; [reflexivity|]). apply page_after_handler.
Qed.

Lemma in_progress_stage wound ts d :
  (1 <= length ts <= 3)%nat ->
  truthy (get wound "infection_signs") = false ->
  ruleCascade wound ts d = JStr "tratamiento_en_curso".
Proof.
  intros [Hlo Hhi] Hinf. unfold ruleCascade. cbv zeta.
  assert (E1 : rule1 (length ts) d = false).
  { unfold rule1. destruct (length ts); [lia|reflexivity]. }
  assert (E2 : rule2 wound (length ts) = true).
  { unfold rule2. rewrite Hinf.
    apply Nat.leb_le in Hlo. apply Nat.leb_le in Hhi. by rewrite Hlo, Hhi. }
  by rewrite E1, E2.
Qed.

(** X18: Recording one of the first three treatments of a wound without
    infection signs, on a page with the evaluator and a backend that
    stores the treatment under the wound and fails neither the reads nor
    the stage write, leaves the wound stored with the stage
    [tratamiento_en_curso]. *)
Theorem first_treatments_start_the_course woundId data a t wound :
  evaluator_loaded a = true ->
  woundId <> "" ->
  truthy (get data "technique") = true ->
  treatment_insert a (treatment_payload woundId data (clock (backend a))) = inr t ->
  t_wound_id t = woundId ->
  wound_read woundId (backend a) = Some wound ->
  truthy (get wound "infection_signs") = false ->
  (length (stored_treatments woundId (backend a)) < 3)%nat ->
  faults (backend a) (SelectTreatments woundId) = false ->
  (forall s, faults (backend a) (UpdateWounds (stage_patch s) woundId) = false) ->
  fst (TreatmentsCrud.create woundId data a) = Returned (Some t)
  /\ exists wound',
       wound_read woundId (backend (snd (TreatmentsCrud.create woundId data a)))
       = Some wound'
       /\ get wound' "clinical_stage" = JStr "tratamiento_en_curso".
Proof.
  intros Hload Hid Htech Hins Ht Hread Hinf Hn Hok Hw.
  rewrite treatments_create_run. cbv zeta.
  assert (E : truthy (JStr woundId) = true).
  { cbn. destruct (String.eqb woundId "") eqn:Es; [|reflexivity].
    apply String.eqb_eq in Es. contradiction. }
  rewrite E, Htech, Hins, Hload. cbn [andb fst snd backend].
  split; [reflexivity|].
  set (w1 := with_tables _ (backend a)).
  assert (Hread1 : wound_read woundId w1 = Some wound) by exact Hread.
  assert (Hc : computed_stage woundId wound w1 = JStr "tratamiento_en_curso").
  { unfold computed_stage. apply in_progress_stage; [|exact Hinf].
    assert (Hok1 : faults w1 (SelectTreatments woundId) = false) by exact Hok.
    rewrite (treatments_read_ok _ _ Hok1).
    unfold stored_treatments, w1. cbn. rewrite filter_app, length_app.
    rewrite filter_cons, decide_True by exact Ht. cbn.
    unfold stored_treatments in Hn. lia. }
  rewrite evaluateStage_run, Hread1. cbv zeta. rewrite Hc.
  destruct (strict_eq (JStr "tratamiento_en_curso") (get wound "clinical_stage")) eqn:Hs.
  - exists wound. split; [exact Hread|].
    destruct (get wound "clinical_stage") as [| | | |x]; try discriminate.
    cbn [strict_eq] in Hs. apply String.eqb_eq in Hs. by subst.
  - exists (stage_patch (JStr "tratamiento_en_curso") ∪ wound). split.
    + apply wound_read_after_write; [exact Hread1|apply Hw].
    + apply get_patched_stage.
Qed.

End TreatmentForm.

(** ** The three handlers and the page *)

(** X19: Each of [wounds.create], [wounds.update] and [treatments.create]
    returns on every path, never throws, and leaves the page with the
    loader hidden (when the page has one) and exactly one more toast,
    shown with the default type "error" and duration 3500, on the success
    path as on the error paths. *)
Theorem handlers_always_finish {js : Builtins} {fmt : DateFormat}
    (patientId : JsVal) (woundId : string) (data : Row) (a : AppWorld) :
  (exists v message,
     fst (WoundsCrud.create patientId data a) = Returned v
     /\ page_after message (document a)
          (document (snd (WoundsCrud.create patientId data a))))
  /\ (exists v message,
        fst (WoundsCrud.update woundId data a) = Returned v
        /\ page_after message (document a)
             (document (snd (WoundsCrud.update woundId data a))))
  /\ (exists v message,
        fst (TreatmentsCrud.create woundId data a) = Returned v
        /\ page_after message (document a)
             (document (snd (TreatmentsCrud.create woundId data a)))).
Proof.
  split; [|split].
  - rewrite wounds_create_run. cbv zeta.
    destruct (truthy patientId); [destruct (wound_insert a _)|];
      do 2 eexists; (split; [reflexivity|apply page_after_handler]).
  - rewrite wounds_update_run. cbv zeta.
    destruct (faults (backend a) _);
      do 2 eexists; (split; [reflexivity|apply page_after_handler]).
  - rewrite treatments_create_run. cbv zeta.
    destruct (truthy (JStr woundId) && truthy (get data "technique"));
      [destruct (treatment_insert a _)|];
      do 2 eexists; (split; [reflexivity|apply page_after_handler]).
Qed.

(** ** Initials *)

Section InitialsProperties.

Context {Char : Type} `{EqDecision Char}.
Variable space : Char.
Variable question_mark : Char.
Variable toUpperCase : list Char -> list Char.

Local Abbreviation split := (split space).
Local Abbreviation initials := (getInitials space question_mark toUpperCase).

Lemma split_word (c : Char) (s : list Char) :
  c <> space -> exists w ws, split (c :: s) = (c :: w) :: ws.
Proof.
  intros Hc. cbn. rewrite decide_False by exact Hc.
  destruct (Router.split space s) as [|w ws]; eauto.
Qed.

Lemma split_after_word (w r : list Char) :
  space ∉ w -> split (w ++ space :: r) = w :: split r.
Proof.
  induction w as [|c w IH]; intros Hw.
  - cbn. by rewrite decide_True.
  - apply not_elem_of_cons in Hw as [Hc Hw].
    cbn. rewrite decide_False by congruence.
    by rewrite (IH Hw).
Qed.

Lemma split_elements (s w : list Char) (c : Char) :
  w ∈ split s -> c ∈ w -> c ∈ s /\ c <> space.
Proof.
  revert w. induction s as [|x s IH]; intros w Hw Hc.
  - cbn in Hw. apply list_elem_of_singleton in Hw as ->. by apply elem_of_nil in Hc.
  - cbn in Hw. destruct (decide (x = space)) as [->|Hx].
    + apply elem_of_cons in Hw as [->|Hw]; [by apply elem_of_nil in Hc|].
      destruct (IH w Hw Hc) as [? ?]. split; [by right|done].
    + destruct (Router.split space s) as [|w0 ws] eqn:Es.
      * apply list_elem_of_singleton in Hw as ->.
        apply list_elem_of_singleton in Hc as ->. split; [by left|done].
      * apply elem_of_cons in Hw as [->|Hw].
        -- apply elem_of_cons in Hc as [->|Hc]; [split; [by left|done]|].
           destruct (IH w0 (list_elem_of_here _ _) Hc) as [? ?].
           split; [by right|done].
        -- destruct (IH w (list_elem_of_further _ _ _ Hw) Hc) as [? ?].
           split; [by right|done].
Qed.

Lemma initials_of_name (s : list Char) :
  s <> [] -> initials (Some s) = toUpperCase (join (take 2 (head <$> split s))).
Proof. by destruct s. Qed.

(** X20: Of a non-empty name [getInitials] gives the upper-casing of at most
    two code units, each taken from the name and none of them a space. *)
Theorem initials_are_at_most_two (s : list Char) :
  s <> [] ->
  exists l, initials (Some s) = toUpperCase l
            /\ (length l <= 2)%nat
            /\ forall c, c ∈ l -> c ∈ s /\ c <> space.
Proof.
  intros Hs. exists (join (take 2 (head <$> split s))).
  split; [by destruct s|]. split.
  - unfold join.
    destruct (head <$> split s) as [|[a|] [|[b|] l]]; cbn; rewrite ?take_0; cbn; lia.
  - intros c Hc. unfold join in Hc.
    apply list_elem_of_join in Hc as (o & Hco & Ho).
    apply list_elem_of_fmap in Ho as (h & -> & Hh).
    apply elem_of_take in Hh as (i & Hh & _).
    apply list_lookup_fmap_Some in Hh as (w & -> & Hw).
    destruct w as [|c' w]; [by apply elem_of_nil in Hco|].
    cbn in Hco. apply list_elem_of_singleton in Hco as ->.
    apply (split_elements s (c' :: w)); [|by left].
    by eapply list_elem_of_lookup_2.
Qed.

(** X21: A name that starts with a word, one space and another word gives the
    upper-cased first units of these two words. *)
Theorem initials_of_two_words (c1 c2 : Char) (w1 rest : list Char) :
  space ∉ c1 :: w1 ->
  c2 <> space ->
  initials (Some ((c1 :: w1) ++ space :: c2 :: rest)) = toUpperCase [c1; c2].
Proof.
  intros Hw Hc. rewrite initials_of_name by done.
  rewrite (split_after_word _ _ Hw).
  destruct (split_word c2 rest Hc) as (w & ws & ->).
  reflexivity.
Qed.

(** X22: Leading spaces cost initials: after one leading space only the first
    word counts, and after two the result is the upper-casing of the empty
    string, not the question mark. *)
Theorem leading_spaces_cost_initials (c : Char) (rest : list Char) :
  initials (Some (space :: space :: rest)) = toUpperCase []
  /\ (c <> space -> initials (Some (space :: c :: rest)) = toUpperCase [c]).
Proof.
  split.
  - rewrite initials_of_name by done. cbn. by rewrite !decide_True.
  - intros Hc. rewrite initials_of_name by done.
    assert (E : split (space :: c :: rest) = [] :: split (c :: rest)).
    { cbn. by rewrite decide_True. }
    rewrite E. destruct (split_word c rest Hc) as (w & ws & ->). reflexivity.
Qed.

End InitialsProperties.

(** * Runs of the further properties on the fixtures *)

Import Scenario.

Lemma fresh_wound_is_initial_witness :
  wound_read "w1" infected_world = Some infected_wound
  /\ stored_treatments "w1" infected_world = []
  /\ result (run "w1" infected_world) = Returned (JStr "valoracion_inicial").
Proof.
  do 2 (split; [vm_compute; reflexivity|]).
  refine (proj1 (@fresh_wound_is_initial builtins "w1" infected_world infected_wound
                   (instant "2026-03-01T10:00:00Z") _ _ _ _));
    vm_compute; reflexivity.
Defined.

Lemma stalled_wound_under_observation_witness :
  wound_read "w1" stalled_world = Some stalled_wound
  /\ length (stored_treatments "w1" stalled_world) = 6%nat
  /\ result (run "w1" stalled_world) = Returned (JStr "bajo_observacion").
Proof.
  do 2 (split; [vm_compute; reflexivity|]).
  apply (@stalled_wound_under_observation builtins "w1" stalled_world stalled_wound
           (instant "2026-03-01T10:00:00Z"));
    try (vm_compute; reflexivity);
    vm_compute; first [lia | intros E; discriminate E].
Defined.

Lemma improving_wound_is_favorable_witness :
  wound_read "w1" improving_world = Some improving_wound
  /\ length (stored_treatments "w1" improving_world) = 4%nat
  /\ result (run "w1" improving_world) = Returned (JStr "evolucion_favorable").
Proof.
  do 2 (split; [vm_compute; reflexivity|]).
  apply (@improving_wound_is_favorable builtins "w1" improving_world improving_wound);
    try (vm_compute; reflexivity).
  left. vm_compute. reflexivity.
Defined.

Lemma no_rule_no_change_witness :
  wound_read "w1" clean_world = Some clean_wound
  /\ @some_rule_applies builtins "w1" clean_wound clean_world = false
  /\ result (run "w1" clean_world) = Returned (JStr "valoracion_inicial").
Proof.
  do 2 (split; [vm_compute; reflexivity|]).
  refine (proj1 (@no_rule_no_change builtins "w1" clean_world clean_wound _ _));
    vm_compute; reflexivity.
Defined.

Lemma infected_wound_stage_witness :
  wound_read "w1" infected_later_world = Some infected_wound
  /\ get infected_wound "infection_signs" = JStr "si"
  /\ result (run "w1" infected_later_world) = Returned (JStr "bajo_observacion").
Proof.
  do 2 (split; [vm_compute; reflexivity|]).
  apply (@infected_wound_stage builtins "w1" infected_later_world infected_wound);
    vm_compute; reflexivity.
Defined.

Lemma invalid_date_never_resets_witness :
  wound_read "w1" undated_world = Some undated_wound
  /\ @new_Date builtins (get undated_wound "created_at") = None
  /\ result (run "w1" undated_world) = Returned (JStr "valoracion_inicial")
  /\ get undated_wound "clinical_stage" = JStr "valoracion_inicial".
Proof.
  do 3 (split; [vm_compute; reflexivity|]).
  apply (@invalid_date_never_resets builtins "w1" undated_world undated_wound);
    vm_compute; reflexivity.
Defined.

Lemma stage_names_preserved_witness :
  stages_valid (db treated_world)
  /\ stages_valid (db (world_after (run "w1" treated_world))).
Proof.
  assert (H : stages_valid (db treated_world)).
  { repeat constructor. exists "valoracion_inicial". split; [in_list|reflexivity]. }
  split; [exact H|].
  exact (@stage_names_preserved builtins "w1" treated_world H).
Defined.

Lemma evaluation_uses_count_only_witness :
  wound_read "w1" treated_world = Some (wound_w1 "valoracion_inicial")
  /\ wound_read "w1" retreated_world = Some (wound_w1 "valoracion_inicial")
  /\ result (run "w1" treated_world) = result (run "w1" retreated_world).
Proof.
  do 2 (split; [vm_compute; reflexivity|]).
  apply (@evaluation_uses_count_only builtins "w1" treated_world retreated_world
           (wound_w1 "valoracion_inicial"));
    vm_compute; reflexivity.
Defined.

Lemma showsImprovement_iff_witness :
  numeric_or_absent (get improving_wound "pain_scale")
  /\ absent_or_nonzero (get improving_wound "length_cm")
  /\ absent_or_nonzero (get improving_wound "width_cm")
  /\ @_showsImprovement builtins improving_wound two_treatments = true.
Proof.
  assert (Hp : numeric_or_absent (get improving_wound "pain_scale"))
    by (right; left; reflexivity).
  assert (Hl : absent_or_nonzero (get improving_wound "length_cm"))
    by (left; reflexivity).
  assert (Hw : absent_or_nonzero (get improving_wound "width_cm"))
    by (left; reflexivity).
  repeat (split; [assumption|]).
  apply (proj2 (@showsImprovement_iff builtins improving_wound two_treatments Hp Hl Hw)).
  split; [cbn; repeat constructor|]. right. left. reflexivity.
Defined.


Lemma create_needs_patient_witness :
  truthy JNull = false
  /\ fst (WoundsCrud.create JNull wound_form (clinic untreated_world)) = Returned None
  /\ inserted (snd (WoundsCrud.create JNull wound_form (clinic untreated_world))) = [].
Proof.
  split; [reflexivity|].
  pose proof (create_needs_patient JNull wound_form (clinic untreated_world) eq_refl)
    as (H1 & H2 & _).
  split; [exact H1|exact H2].
Defined.

Lemma create_sends_clean_payload_witness :
  truthy (JStr "p1") = true
  /\ wound_payload (JStr "p1") wound_form
     = {[ "pain_scale" := JNum 0; "type" := JStr "quemadura";
          "clinical_stage" := JStr "valoracion_inicial"; "patient_id" := JStr "p1" ]}
  /\ inserted (snd (WoundsCrud.create (JStr "p1") wound_form (clinic untreated_world)))
     = [("wounds", wound_payload (JStr "p1") wound_form)].
Proof.
  split; [reflexivity|]. split; [vm_compute; reflexivity|].
  exact (proj1 (create_sends_clean_payload (JStr "p1") wound_form
                  (clinic untreated_world) eq_refl)).
Defined.


Lemma update_of_missing_wound_witness :
  Forall (fun r => has_id "w9" r = false) (wounds_table (db untreated_world))
  /\ fst (WoundsCrud.update "w9" pain_update (clinic untreated_world)) = Returned true
  /\ db (backend (snd (WoundsCrud.update "w9" pain_update (clinic untreated_world))))
     = db untreated_world.
Proof.
  assert (H : Forall (fun r => has_id "w9" r = false)
                (wounds_table (db (backend (clinic untreated_world)))))
    by (repeat constructor).
  split; [exact H|].
  pose proof (update_of_missing_wound "w9" pain_update (clinic untreated_world)
                eq_refl H) as (H1 & H2 & _).
  split; [exact H1|exact H2].
Defined.

Lemma treatment_needs_wound_and_technique_witness :
  truthy (get empty_form "technique") = false
  /\ fst (@TreatmentsCrud.create builtins date_format "w1" empty_form
            (clinic untreated_world)) = Returned None
  /\ backend (snd (@TreatmentsCrud.create builtins date_format "w1" empty_form
                     (clinic untreated_world))) = untreated_world.
Proof.
  assert (H : truthy (get empty_form "technique") = false) by (vm_compute; reflexivity).
  split; [exact H|].
  pose proof (@treatment_needs_wound_and_technique builtins date_format "w1" empty_form
                (clinic untreated_world) (or_intror H)) as (H1 & _ & H3 & _).
  split; [exact H1|exact H3].
Defined.

Lemma treatment_survives_evaluation_witness :
  faults unreachable_world (SelectWoundSingle "w1") = true
  /\ treatment_insert (clinic unreachable_world)
       (@treatment_payload date_format "w1" treatment_form (clock unreachable_world))
     = inr stored_treatment
  /\ fst (@TreatmentsCrud.create builtins date_format "w1" treatment_form
            (clinic unreachable_world)) = Returned (Some stored_treatment).
Proof.
  split; [reflexivity|].
  assert (Hins : treatment_insert (clinic unreachable_world)
                   (@treatment_payload date_format "w1" treatment_form
                      (clock (backend (clinic unreachable_world))))
                 = inr stored_treatment) by (vm_compute; reflexivity).
  split; [exact Hins|].
  refine (proj1 (@treatment_survives_evaluation builtins date_format "w1" treatment_form
                   (clinic unreachable_world) stored_treatment _ _ Hins)).
  - intros E. discriminate E.
  - vm_compute. reflexivity.
Defined.

Lemma refused_treatment_is_not_evaluated_witness :
  fst (@TreatmentsCrud.create builtins date_format "w1" treatment_form
         (closed_clinic untreated_world)) = Returned None
  /\ backend (snd (@TreatmentsCrud.create builtins date_format "w1" treatment_form
                     (closed_clinic untreated_world))) = untreated_world.
Proof.
  assert (Hid : "w1" <> "") by (intros E; discriminate E).
  pose proof (@refused_treatment_is_not_evaluated builtins date_format "w1"
                treatment_form (closed_clinic untreated_world)
                "new row violates row-level security policy" Hid eq_refl eq_refl)
    as (H1 & H2 & _).
  split; [exact H1|exact H2].
Defined.

Lemma first_treatments_start_the_course_witness :
  wound_read "w1" untreated_world = Some (wound_w1 "valoracion_inicial")
  /\ stored_treatments "w1" untreated_world = []
  /\ exists wound',
       wound_read "w1"
         (backend (snd (@TreatmentsCrud.create builtins date_format "w1" treatment_form
                          (clinic untreated_world))))
       = Some wound'
       /\ get wound' "clinical_stage" = JStr "tratamiento_en_curso".
Proof.
  assert (Hread : wound_read "w1" (backend (clinic untreated_world))
                  = Some (wound_w1 "valoracion_inicial")) by (vm_compute; reflexivity).
  split; [exact Hread|]. split; [vm_compute; reflexivity|].
  refine (proj2 (@first_treatments_start_the_course builtins date_format "w1"
                   treatment_form (clinic untreated_world) stored_treatment
                   (wound_w1 "valoracion_inicial") eq_refl _ _ _ eq_refl Hread _ _ _ _)).
  - intros E. discriminate E.
  - vm_compute. reflexivity.
  - vm_compute. reflexivity.
  - vm_compute. reflexivity.
  - vm_compute. lia.
  - reflexivity.
  - intros s. reflexivity.
Defined.

Lemma initials_are_at_most_two_witness :
  String.list_ascii_of_string "ana maria lopez" <> []
  /\ exists l,
       getInitials (Ascii.ascii_of_N 32) (Ascii.ascii_of_N 63) (map upper)
         (Some (String.list_ascii_of_string "ana maria lopez")) = map upper l
       /\ (length l <= 2)%nat
       /\ forall c, c ∈ l ->
            c ∈ String.list_ascii_of_string "ana maria lopez"
            /\ c <> Ascii.ascii_of_N 32.
Proof.
  assert (H : String.list_ascii_of_string "ana maria lopez" <> [])
    by (intros E; discriminate E).
  split; [exact H|].
  exact (initials_are_at_most_two (Ascii.ascii_of_N 32) (Ascii.ascii_of_N 63)
           (map upper) _ H).
Defined.

Lemma initials_of_two_words_witness :
  initials "ana maria lopez" = "AM".
Proof.
  unfold initials.
  change (String.list_ascii_of_string "ana maria lopez")
    with ((Ascii.ascii_of_N 97 :: String.list_ascii_of_string "na")
          ++ Ascii.ascii_of_N 32 :: Ascii.ascii_of_N 109
             :: String.list_ascii_of_string "aria lopez").
  rewrite (initials_of_two_words (Ascii.ascii_of_N 32) (Ascii.ascii_of_N 63) (map upper)).
  - reflexivity.
  - intros Hin. repeat (apply elem_of_cons in Hin as [E|Hin]; [discriminate E|]).
    by apply elem_of_nil in Hin.
  - intros E. discriminate E.
Defined.

Lemma leading_spaces_cost_initials_witness :
  initials "  ana maria" = "" /\ initials " ana maria" = "A".
Proof.
  unfold initials. split.
  - change (String.list_ascii_of_string "  ana maria")
      with (Ascii.ascii_of_N 32 :: Ascii.ascii_of_N 32
            :: String.list_ascii_of_string "ana maria").
    rewrite (proj1 (leading_spaces_cost_initials (Ascii.ascii_of_N 32)
                      (Ascii.ascii_of_N 63) (map upper) (Ascii.ascii_of_N 32) _)).
    reflexivity.
  - change (String.list_ascii_of_string " ana maria")
      with (Ascii.ascii_of_N 32 :: Ascii.ascii_of_N 97
            :: String.list_ascii_of_string "na maria").
    rewrite (proj2 (leading_spaces_cost_initials (Ascii.ascii_of_N 32)
                      (Ascii.ascii_of_N 63) (map upper) (Ascii.ascii_of_N 97) _)).
    + reflexivity.
    + intros E. discriminate E.
Defined.
